(** * Skanderbeg gateway: the caching proxy of [app/main.py]

    A shallow embedding of the gateway's cache-key derivation, its on-disk
    cache store, the read-through handler of [/api/getSaveDataDump] and the
    [/health] report, followed by the properties the specification states
    about them.

    Conventions.
    - A Python [str] is a [string]: the sequence of bytes of its UTF-8
      encoding.  Concatenation of texts is concatenation of their
      encodings, so an f-string is [append] and [str.encode()] only
      exposes the bytes.
    - Machine words of MD5 are [Z] with the wrap-around written out.
    - What the code obtains from outside (the clock, the upstream server,
      the fate of a disk write) is a field of the record [world]; the
      configuration of the module and what the [json] module does are
      the fields of the class [environment].
    - The state threaded through a request is the cache directory and
      the list of the upstream requests sent so far. *)

From Stdlib Require Import ZArith NArith List String Ascii Bool Lia DecimalString.

#[local] Set Warnings "-register-all".

From Stdlib Require Import Floats.SpecFloat.
Import ListNotations.

Local Open Scope string_scope.
Local Open Scope Z_scope.

(** ** hashlib.md5 (RFC 1321) *)

Module MD5.

Definition wrap32 (x : Z) : Z := Z.land x 0xFFFFFFFF.

Definition add32 (x y : Z) : Z := wrap32 (x + y).

Definition rotl32 (x c : Z) : Z :=
  wrap32 (Z.lor (Z.shiftl x c) (Z.shiftr x (32 - c))).

Definition not32 (x : Z) : Z := Z.lxor x 0xFFFFFFFF.

Definition shifts : list Z :=
  [ 7; 12; 17; 22;  7; 12; 17; 22;  7; 12; 17; 22;  7; 12; 17; 22;
    5;  9; 14; 20;  5;  9; 14; 20;  5;  9; 14; 20;  5;  9; 14; 20;
    4; 11; 16; 23;  4; 11; 16; 23;  4; 11; 16; 23;  4; 11; 16; 23;
    6; 10; 15; 21;  6; 10; 15; 21;  6; 10; 15; 21;  6; 10; 15; 21 ].

(** [sines] at [i] is [floor (2^32 * abs (sin (i + 1)))]. *)
Definition sines : list Z :=
  [ 0xd76aa478; 0xe8c7b756; 0x242070db; 0xc1bdceee;
    0xf57c0faf; 0x4787c62a; 0xa8304613; 0xfd469501;
    0x698098d8; 0x8b44f7af; 0xffff5bb1; 0x895cd7be;
    0x6b901122; 0xfd987193; 0xa679438e; 0x49b40821;
    0xf61e2562; 0xc040b340; 0x265e5a51; 0xe9b6c7aa;
    0xd62f105d; 0x02441453; 0xd8a1e681; 0xe7d3fbc8;
    0x21e1cde6; 0xc33707d6; 0xf4d50d87; 0x455a14ed;
    0xa9e3e905; 0xfcefa3f8; 0x676f02d9; 0x8d2a4c8a;
    0xfffa3942; 0x8771f681; 0x6d9d6122; 0xfde5380c;
    0xa4beea44; 0x4bdecfa9; 0xf6bb4b60; 0xbebfbc70;
    0x289b7ec6; 0xeaa127fa; 0xd4ef3085; 0x04881d05;
    0xd9d4d039; 0xe6db99e5; 0x1fa27cf8; 0xc4ac5665;
    0xf4292244; 0x432aff97; 0xab9423a7; 0xfc93a039;
    0x655b59c3; 0x8f0ccc92; 0xffeff47d; 0x85845dd1;
    0x6fa87e4f; 0xfe2ce6e0; 0xa3014314; 0x4e0811a1;
    0xf7537e82; 0xbd3af235; 0x2ad7d2bb; 0xeb86d391 ].

(** The four chaining words A, B, C, D. *)
Record words := Words { wa : Z; wb : Z; wc : Z; wd : Z }.

Definition init : words :=
  Words 0x67452301 0xefcdab89 0x98badcfe 0x10325476.

(** The bytes of a text, each as a number below 256. *)
Fixpoint bytes_of (s : string) : list Z :=
  match s with
  | EmptyString => []
  | String c r => Z.of_N (N_of_ascii c) :: bytes_of r
  end.

(** [n] bytes of [x], least significant first. *)
Fixpoint le_bytes (n : nat) (x : Z) : list Z :=
  match n with
  | O => []
  | S k => Z.land x 255 :: le_bytes k (Z.shiftr x 8)
  end.

(** Padding: a one bit, zeros up to 56 modulo 64, the bit length on 64
    bits. *)
Definition pad (msg : list Z) : list Z :=
  let len := Z.of_nat (List.length msg) in
  let zeros := Z.to_nat ((55 - len) mod 64) in
  msg ++ 0x80 :: repeat 0 zeros ++ le_bytes 8 (Z.land (8 * len) 0xFFFFFFFFFFFFFFFF).

(** A little-endian word from up to four bytes. *)
Definition word_of (bs : list Z) : Z :=
  fold_right (fun b acc => b + 256 * acc) 0 bs.

(** The sixteen words of a 64-byte block. *)
Fixpoint block_words (n : nat) (bs : list Z) : list Z :=
  match n with
  | O => []
  | S k => word_of (firstn 4 bs) :: block_words k (skipn 4 bs)
  end.

Definition mix (i : Z) (b c d : Z) : Z :=
  if i <? 16 then Z.lor (Z.land b c) (Z.land (not32 b) d)
  else if i <? 32 then Z.lor (Z.land d b) (Z.land (not32 d) c)
  else if i <? 48 then Z.lxor (Z.lxor b c) d
  else Z.lxor c (Z.lor b (not32 d)).

Definition pick (i : Z) : Z :=
  if i <? 16 then i
  else if i <? 32 then (5 * i + 1) mod 16
  else if i <? 48 then (3 * i + 5) mod 16
  else (7 * i) mod 16.

Definition step (m : list Z) (st : words) (i : Z) : words :=
  let n := Z.to_nat i in
  let f := add32 (add32 (add32 (mix i (wb st) (wc st) (wd st)) (wa st))
                        (nth n sines 0))
                 (nth (Z.to_nat (pick i)) m 0) in
  Words (wd st) (add32 (wb st) (rotl32 f (nth n shifts 0))) (wb st) (wc st).

Definition rounds : list Z := map Z.of_nat (seq 0 64).

Definition compress (st : words) (block : list Z) : words :=
  let m := block_words 16 block in
  let r := fold_left (step m) rounds st in
  Words (add32 (wa st) (wa r)) (add32 (wb st) (wb r))
        (add32 (wc st) (wc r)) (add32 (wd st) (wd r)).

Fixpoint blocks (n : nat) (bs : list Z) (st : words) : words :=
  match n with
  | O => st
  | S k => blocks k (skipn 64 bs) (compress st (firstn 64 bs))
  end.

Definition digest_words (s : string) : words :=
  let p := pad (bytes_of s) in
  blocks (Nat.div (List.length p) 64) p init.

(** The sixteen bytes of the digest. *)
Definition digest (s : string) : list Z :=
  let w := digest_words s in
  le_bytes 4 (wa w) ++ le_bytes 4 (wb w) ++ le_bytes 4 (wc w) ++ le_bytes 4 (wd w).

Definition hex_digit (n : Z) : ascii :=
  if n <? 10 then ascii_of_N (Z.to_N (48 + n)) else ascii_of_N (Z.to_N (87 + n)).

Fixpoint hex_of (bs : list Z) : string :=
  match bs with
  | [] => EmptyString
  | b :: r => String (hex_digit (Z.shiftr b 4)) (String (hex_digit (Z.land b 15)) (hex_of r))
  end.

(** [hashlib.md5(data).hexdigest()] *)
Definition hexdigest (s : string) : string := hex_of (digest s).

End MD5.

(** ** Values of the [json] module

    What [json.load] and [response.json()] return and [json.dump] accepts:
    [None], [bool], [int], [float], [str], [list] and [dict].  A [dict]
    keeps its items in insertion order; a [float] is a binary64 number. *)

Inductive json : Type :=
| JNull
| JBool (b : bool)
| JInt (n : Z)
| JFloat (x : spec_float)
| JStr (s : string)
| JArr (items : list json)
| JObj (fields : list (string * json)).

(** [bool(v)], the test of [if v:]. *)
Definition truthy (v : json) : bool :=
  match v with
  | JNull => false
  | JBool b => b
  | JInt n => negb (n =? 0)
  | JFloat (S754_zero _) => false
  | JFloat _ => true
  | JStr s => negb (String.eqb s "")
  | JArr items => match items with [] => false | _ :: _ => true end
  | JObj fields => match fields with [] => false | _ :: _ => true end
  end.

(** [type(v).__name__] *)
Definition type_name (v : json) : string :=
  match v with
  | JNull => "NoneType"
  | JBool _ => "bool"
  | JInt _ => "int"
  | JFloat _ => "float"
  | JStr _ => "str"
  | JArr _ => "list"
  | JObj _ => "dict"
  end.

Fixpoint dict_lookup (key : string) (fields : list (string * json)) : option json :=
  match fields with
  | [] => None
  | (k, v) :: rest => if String.eqb k key then Some v else dict_lookup key rest
  end.

(** ** Exceptions

    Two classes matter to the handler's [except] clauses:
    [requests.exceptions.RequestException] with its subclasses, and every
    other [Exception].  The text is [str(e)]. *)

Inductive exn : Type :=
| RequestException (msg : string)
| OtherException (msg : string).

(** [v.get(key)]: only a [dict] has the method; a missing key gives
    [None]. *)
Definition py_get (v : json) (key : string) : json + exn :=
  match v with
  | JObj fields =>
      inl (match dict_lookup key fields with Some x => x | None => JNull end)
  | _ =>
      inr (OtherException
             (String.append "'" (String.append (type_name v)
                "' object has no attribute 'get'")))
  end.

(** ** The cache directory

    [CACHE_DIR.mkdir(parents=True, exist_ok=True)] runs when the module is
    loaded, so the store is a directory; its state is the list of its
    entries.  Every path the program builds is [CACHE_DIR / ...] and is
    kept as the components after [CACHE_DIR].

    An entry is a regular file, with its text and whether the process
    may read it; a directory; or something else, such as a socket.  The
    size [stat] reports for a file is the length of its text; for the
    others it is carried by the node. *)

Inductive node : Type :=
| File (readable : bool) (content : string)
| Dir (own_size : Z) (children : list (string * node))
| Special (own_size : Z).

Definition entries : Type := list (string * node).

Definition Path : Type := list string.

Fixpoint lookup (name : string) (es : entries) : option node :=
  match es with
  | [] => None
  | (k, n) :: rest => if String.eqb k name then Some n else lookup name rest
  end.

(** Replace the entry called [name], or add it at the end. *)
Fixpoint put (name : string) (n : node) (es : entries) : entries :=
  match es with
  | [] => [(name, n)]
  | (k, v) :: rest =>
      if String.eqb k name then (name, n) :: rest else (k, v) :: put name n rest
  end.

(** The node a path leads to. *)
Fixpoint resolve (es : entries) (p : Path) : option node :=
  match p with
  | [] => None
  | c :: p' =>
      match lookup c es with
      | None => None
      | Some n =>
          match p' with
          | [] => Some n
          | _ :: _ => match n with Dir _ sub => resolve sub p' | _ => None end
          end
      end
  end.

(** [Path.exists()] *)
Definition path_exists (es : entries) (p : Path) : bool :=
  match resolve es p with Some _ => true | None => false end.

(** [Path.is_file()] *)
Definition is_file (n : node) : bool :=
  match n with File _ _ => true | _ => false end.

(** [Path.stat().st_size] *)
Definition st_size (n : node) : Z :=
  match n with
  | File _ content => Z.of_nat (String.length content)
  | Dir sz _ => sz
  | Special sz => sz
  end.

(** [open(path, 'r')] and reading the whole text. *)
Definition open_read (es : entries) (p : Path) : string + exn :=
  match resolve es p with
  | Some (File true content) => inl content
  | Some (File false _) => inr (OtherException "[Errno 13] Permission denied")
  | Some (Dir _ _) => inr (OtherException "[Errno 21] Is a directory")
  | Some (Special _) => inr (OtherException "[Errno 6] No such device or address")
  | None => inr (OtherException "[Errno 2] No such file or directory")
  end.

(** How writing a file goes, as the operating system decides: the file
    is opened and all the text written; [open] raises; or the write
    raises after [written] characters. *)
Inductive write_fate : Type :=
| Completes
| OpenRaises (msg : string)
| DumpRaises (written : nat) (msg : string).

(** [with open(path, 'w') as f: f.write(text)] for a path directly inside
    the cache directory.  Opening truncates; a file that exists keeps its
    permissions. *)
Definition open_write (fate : write_fate) (es : entries) (p : Path) (text : string)
  : entries * option exn :=
  match p with
  | [name] =>
      let keep := match lookup name es with Some (File r _) => r | _ => true end in
      match lookup name es with
      | Some (Dir _ _) => (es, Some (OtherException "[Errno 21] Is a directory"))
      | Some (Special _) => (es, Some (OtherException "[Errno 6] No such device or address"))
      | _ =>
          match fate with
          | Completes => (put name (File keep text) es, None)
          | OpenRaises msg => (es, Some (OtherException msg))
          | DumpRaises written msg =>
              (put name (File keep (String.substring 0 written text)) es,
               Some (OtherException msg))
          end
      end
  | _ => (es, Some (OtherException "[Errno 2] No such file or directory"))
  end.

(** [Path.glob('**/*')]: every entry below the directory, at any depth. *)
Fixpoint glob_below (prefix : Path) (n : node) : list (Path * node) :=
  match n with
  | Dir _ sub =>
      (fix each (l : entries) : list (Path * node) :=
         match l with
         | [] => []
         | (name, child) :: rest =>
             ((prefix ++ [name])%list, child)
               :: (glob_below (prefix ++ [name])%list child ++ each rest)%list
         end) sub
  | _ => []
  end.

Definition glob_all (es : entries) : list (Path * node) := glob_below [] (Dir 0 es).

(** ** datetime

    [datetime.utcnow()] is a naive datetime holding the UTC wall clock. *)

Record datetime : Type := {
  year : Z; month : Z; day : Z;
  hour : Z; minute : Z; second : Z; microsecond : Z
}.

Definition digit_char (n : Z) : ascii := ascii_of_N (Z.to_N (48 + n mod 10)).

(** ["%0{width}d" % n] for [0 <= n < 10 ^ width], which holds of every
    field of a [datetime] at its width. *)
Fixpoint zero_pad (width : nat) (n : Z) : string :=
  match width with
  | O => ""
  | S k => String (digit_char (n / 10 ^ Z.of_nat k)) (zero_pad k n)
  end.

(** [datetime.isoformat()] of a naive datetime: the fraction is printed
    only when the microseconds are not zero. *)
Definition isoformat (d : datetime) : string :=
  zero_pad 4 (year d) ++ "-" ++ zero_pad 2 (month d) ++ "-" ++ zero_pad 2 (day d)
  ++ "T" ++ zero_pad 2 (hour d) ++ ":" ++ zero_pad 2 (minute d) ++ ":"
  ++ zero_pad 2 (second d)
  ++ (if microsecond d =? 0 then "" else "." ++ zero_pad 6 (microsecond d)).

(** ** requests *)

Record http_request : Type := {
  url : string;
  params : list (string * string);
  timeout : Z
}.

Record response : Type := {
  status_code : Z;
  reason : string;
  response_url : string;
  text : string
}.

(** What the network does with a request: no connection, no answer in
    time, or a response. *)
Inductive http_reply : Type :=
| ConnectionError (msg : string)
| TimedOut (msg : string)
| Answered (r : response).

Definition decimal (n : Z) : string := NilZero.string_of_int (Z.to_int n).

(** [Response.raise_for_status()]: an [HTTPError], which is a
    [RequestException], for the statuses 400 to 599 and nothing for any
    other status. *)
Definition raise_for_status (r : response) : unit + exn :=
  if (400 <=? status_code r) && (status_code r <? 500) then
    inr (RequestException (decimal (status_code r) ++ " Client Error: " ++ reason r
                           ++ " for url: " ++ response_url r))
  else if (500 <=? status_code r) && (status_code r <? 600) then
    inr (RequestException (decimal (status_code r) ++ " Server Error: " ++ reason r
                           ++ " for url: " ++ response_url r))
  else inl tt.

(** ** The outside world of one request *)

Record world : Type := {
  utcnow : datetime;
  send : http_request -> http_reply;
  write_fate_of : write_fate
}.

(** The cache directory and the upstream calls made so far. *)
Record state : Type := {
  disk : entries;
  sent : list http_request
}.

(** Computations that read and change the state and may raise. *)
Definition M (A : Type) : Type := state -> (A + exn) * state.

Definition ret {A : Type} (a : A) : M A := fun st => (inl a, st).

Definition bind {A B : Type} (m : M A) (k : A -> M B) : M B :=
  fun st =>
    match m st with
    | (inl a, st') => k a st'
    | (inr e, st') => (inr e, st')
    end.

Definition lift {A : Type} (r : A + exn) : M A := fun st => (r, st).

Definition reads {A : Type} (f : entries -> A) : M A :=
  fun st => (inl (f (disk st)), st).

Definition writes (f : entries -> entries) : M unit :=
  fun st => (inl tt, {| disk := f (disk st); sent := sent st |}).

Notation "x <- m ;; k" := (bind m (fun x => k))
  (at level 61, m at next level, right associativity).

(** What the handler hands to FastAPI: a value to send as the body, or
    the [HTTPException] it raises. *)
Inductive http_result : Type :=
| Returned (body : json)
| HTTPException (code : Z) (detail : string).

(** A value that [json.dumps(..., allow_nan=False)] renders: it holds
    neither NaN nor an infinity. *)
Fixpoint json_compliant (v : json) : bool :=
  match v with
  | JFloat (S754_infinity _) => false
  | JFloat S754_nan => false
  | JArr items => forallb json_compliant items
  | JObj fields => forallb (fun field => json_compliant (snd field)) fields
  | _ => true
  end.

(** The status of the answer.  FastAPI renders a returned value with
    [allow_nan=False]: the body goes out with status 200, or the
    rendering raises after the handler has returned and the answer is
    500.  A raised [HTTPException] goes out with its own status. *)
Definition http_status (r : http_result) : Z :=
  match r with
  | Returned v => if json_compliant v then 200 else 500
  | HTTPException code _ => code
  end.

(** [a / b] on two [int]s is the binary64 number nearest to the
    quotient.  For a divisor that is a power of two, as here, that is
    the IEEE quotient of the two operands taken to binary64. *)
Definition true_divide (a b : Z) : spec_float :=
  SFdiv 53 1024 (binary_normalize 53 1024 a 0 false)
                (binary_normalize 53 1024 b 0 false).

Fixpoint sum (l : list Z) : Z :=
  match l with
  | [] => 0
  | x :: r => x + sum r
  end.

Record health : Type := {
  status : string;
  timestamp : string;
  cache_dir : string;
  cache_size_mb : spec_float
}.

(** The bytes held by regular files, at any depth. *)
Fixpoint regular_bytes (n : node) : Z :=
  match n with
  | File _ content => Z.of_nat (String.length content)
  | Dir _ sub =>
      (fix each (l : entries) : Z :=
         match l with
         | [] => 0
         | (_, child) :: rest => regular_bytes child + each rest
         end) sub
  | Special _ => 0
  end.

(** The sum of the sizes of all regular files under the cache
    directory. *)
Definition regular_bytes_under (es : entries) : Z := regular_bytes (Dir 0 es).

(** The names of every directory of the tree are distinct, as in a file
    system. *)
Fixpoint names_unique (n : node) : Prop :=
  match n with
  | Dir _ sub =>
      NoDup (map fst sub) /\
      (fix each (l : entries) : Prop :=
         match l with
         | [] => True
         | (_, child) :: rest => names_unique child /\ each rest
         end) sub
  | _ => True
  end.

(** The sizes of the regular files of a listing, added up. *)
Definition file_sizes (l : list (Path * node)) : Z :=
  sum (map (fun f => st_size (snd f)) (filter (fun f => is_file (snd f)) l)).

(** Induction on a tree: a directory has the property when all its
    children have it. *)
Fixpoint node_induction (P : node -> Prop)
    (on_file : forall r content, P (File r content))
    (on_dir : forall sz sub, Forall (fun e => P (snd e)) sub -> P (Dir sz sub))
    (on_special : forall sz, P (Special sz))
    (n : node) : P n :=
  match n with
  | File r content => on_file r content
  | Dir sz sub =>
      on_dir sz sub
        ((fix each (l : entries) : Forall (fun e => P (snd e)) l :=
            match l with
            | [] => Forall_nil _
            | e :: rest =>
                Forall_cons e (node_induction P on_file on_dir on_special (snd e))
                  (each rest)
            end) sub)
  | Special sz => on_special sz
  end.

(** ** Shapes of texts *)

Fixpoint string_forall (p : ascii -> bool) (s : string) : bool :=
  match s with
  | EmptyString => true
  | String c r => p c && string_forall p r
  end.

Definition is_digit (c : ascii) : bool :=
  ((48 <=? N_of_ascii c) && (N_of_ascii c <=? 57))%N.

Definition is_hex_char (c : ascii) : bool :=
  is_digit c || ((97 <=? N_of_ascii c) && (N_of_ascii c <=? 102))%N.

(** [matches pattern s]: [s] has the length of [pattern], with a digit
    where the pattern has ['d'] and the pattern's character elsewhere. *)
Fixpoint matches (pattern s : string) : bool :=
  match pattern, s with
  | EmptyString, EmptyString => true
  | String p pattern', String c s' =>
      (if Ascii.eqb p "d" then is_digit c else Ascii.eqb p c) && matches pattern' s'
  | _, _ => false
  end.

(** ISO 8601 date and time, with or without microseconds. *)
Definition iso8601 (s : string) : bool :=
  matches "dddd-dd-ddTdd:dd:dd" s || matches "dddd-dd-ddTdd:dd:dd.dddddd" s.

(** [contains needle hay]: [needle] occurs in [hay]. *)
Fixpoint contains (needle hay : string) : bool :=
  String.prefix needle hay ||
  match hay with
  | EmptyString => false
  | String _ rest => contains needle rest
  end.

(** ** The gateway *)

(** The configuration read when the module is loaded and the [json]
    module it imports: [BASE_API_URL] is
    [os.getenv("BASE_API_URL", "http://skanderbeg.pm/api.php")], [CACHE_DIR]
    is [str(CACHE_DIR)], [json_loads] gives the value or the text of the
    error.  [json_decode_error text] tells the class of the exception
    [json.loads] raises on [text]: a [JSONDecodeError], or another
    exception, as the [RecursionError] of a nesting too deep and the
    [ValueError] of an integer beyond the digit limit. *)
Class environment : Type := {
  BASE_API_URL : string;
  CACHE_DIR : string;
  json_loads : string -> json + string;
  json_decode_error : string -> bool;
  json_dumps : json -> string
}.

Section Gateway.

Context {env : environment}.

Variable w : world.

Definition hash_key (query_params : string) : string :=
  MD5.hexdigest query_params.

Definition get_cache_path (query_params : string) : Path :=
  [hash_key query_params ++ ".json"].

Definition get_from_cache (es : entries) (query_params : string) : json :=
  let cache_path := get_cache_path query_params in
  if path_exists es cache_path then
    match open_read es cache_path with
    | inl content =>
        match json_loads content with
        | inl cached_data => cached_data
        | inr _ => JNull
        end
    | inr _ => JNull
    end
  else JNull.

Definition save_to_cache (es : entries) (query_params : string) (data : json)
  : entries :=
  let cache_path := get_cache_path query_params in
  fst (open_write (write_fate_of w) es cache_path (json_dumps data)).

Definition health_check (es : entries) : health :=
  {| status := "healthy";
     timestamp := isoformat (utcnow w);
     cache_dir := CACHE_DIR;
     cache_size_mb :=
       true_divide
         (sum (map (fun f => st_size (snd f))
                   (filter (fun f => is_file (snd f)) (glob_all es))))
         (1024 * 1024) |}.

(** [requests.get(url, params=..., timeout=...)] *)
Definition requests_get (req : http_request) : M response :=
  fun st =>
    let st' := {| disk := disk st; sent := (sent st ++ [req])%list |} in
    match send w req with
    | ConnectionError msg => (inr (RequestException msg), st')
    | TimedOut msg => (inr (RequestException msg), st')
    | Answered r => (inl r, st')
    end.

(** [Response.json()]: a [JSONDecodeError] of [json.loads] is raised
    again as [requests.exceptions.JSONDecodeError], which is a
    [RequestException] (requests 2.27 and later); any other exception
    of [json.loads] goes through as it is. *)
Definition response_json (r : response) : json + exn :=
  match json_loads (text r) with
  | inl v => inl v
  | inr msg =>
      if json_decode_error (text r) then inr (RequestException msg)
      else inr (OtherException msg)
  end.

Definition query_key_of (save type : string) : string :=
  "save=" ++ save ++ "&type=" ++ type.

Definition upstream_request (save type : string) : http_request :=
  {| url := BASE_API_URL;
     params := [("scope", "getSaveDataDump"); ("save", save); ("type", type)];
     timeout := 30 |}.

Definition cache_entry_of (api_data : json) (save type : string) : json :=
  JObj [("data", api_data);
        ("timestamp", JStr (isoformat (utcnow w)));
        ("save", JStr save);
        ("type", JStr type)].

(** The cache-miss path: call the upstream API, store the entry,
    return the payload. *)
Definition fetch_from_upstream (save type : string) : M json :=
  let query_key := query_key_of save type in
  response <- requests_get (upstream_request save type) ;;
  _ <- lift (raise_for_status response) ;;
  api_data <- lift (response_json response) ;;
  let cache_entry := cache_entry_of api_data save type in
  _ <- writes (fun es => save_to_cache es query_key cache_entry) ;;
  ret api_data.

(** The body of the handler's [try]. *)
Definition get_save_data_dump_try (save type : string) : M json :=
  let query_key := query_key_of save type in
  cached_result <- reads (fun es => get_from_cache es query_key) ;;
  if truthy cached_result then
    lift (py_get cached_result "data")
  else
    fetch_from_upstream save type.

(** The handler with its two [except] clauses. *)
Definition get_save_data_dump (save type : string) (st : state)
  : http_result * state :=
  match get_save_data_dump_try save type st with
  | (inl v, st') => (Returned v, st')
  | (inr (RequestException e), st') =>
      (HTTPException 502 ("External API error: " ++ e), st')
  | (inr (OtherException e), st') =>
      (HTTPException 500 ("Internal server error: " ++ e), st')
  end.

(** The route: [type] defaults to ["countriesData"]. *)
Definition route_get_save_data_dump (save : string) (type : option string)
  : state -> http_result * state :=
  get_save_data_dump save
    (match type with Some t => t | None => "countriesData" end).

(** A document is stored for a query: the file of its key can be read
    and parses to [v]. *)
Definition stored (es : entries) (query_params : string) (v : json) : Prop :=
  exists content,
    resolve es (get_cache_path query_params) = Some (File true content) /\
    json_loads content = inl v.

(** The ways the upstream call fails, each with the text of its
    exception. *)
Inductive upstream_failure (req : http_request) : string -> Prop :=
| connection_failure (msg : string) :
    send w req = ConnectionError msg -> upstream_failure req msg
| timed_out (msg : string) :
    send w req = TimedOut msg -> upstream_failure req msg
| error_status (r : response) (msg : string) :
    send w req = Answered r ->
    400 <= status_code r < 600 ->
    raise_for_status r = inr (RequestException msg) ->
    upstream_failure req msg
| body_not_json (r : response) (msg : string) :
    send w req = Answered r ->
    ~ 400 <= status_code r < 600 ->
    json_loads (text r) = inr msg ->
    upstream_failure req msg.

(** The upstream call succeeds with the payload [v]. *)
Definition upstream_success (req : http_request) (v : json) : Prop :=
  exists r,
    send w req = Answered r /\
    200 <= status_code r < 300 /\
    json_loads (text r) = inl v.

(** The failures of the upstream call that reach the handler as a
    [RequestException], each with its text: no connection, no answer in
    time, a status from 400 to 599, or a body on which the decoder
    raises [JSONDecodeError]. *)
Inductive raises_request_exception (req : http_request) : string -> Prop :=
| by_connection (msg : string) :
    send w req = ConnectionError msg -> raises_request_exception req msg
| by_timeout (msg : string) :
    send w req = TimedOut msg -> raises_request_exception req msg
| by_status (r : response) (msg : string) :
    send w req = Answered r ->
    400 <= status_code r < 600 ->
    raise_for_status r = inr (RequestException msg) ->
    raises_request_exception req msg
| by_decoding (r : response) (msg : string) :
    send w req = Answered r ->
    ~ 400 <= status_code r < 600 ->
    json_loads (text r) = inr msg ->
    json_decode_error (text r) = true ->
    raises_request_exception req msg.

(** The decoder gives up on the body with an exception that is not a
    [JSONDecodeError]. *)
Definition decoder_gives_up (req : http_request) (msg : string) : Prop :=
  exists r,
    send w req = Answered r /\
    ~ 400 <= status_code r < 600 /\
    json_loads (text r) = inr msg /\
    json_decode_error (text r) = false.

End Gateway.

(** ** A sample environment

    A small writer of JSON texts and the reader that inverts it on a
    table of documents, standing for the [json] module in the examples;
    a clock, and worlds built from a reply and the fate of the write. *)

Definition dquote : string := String (ascii_of_nat 34) "".

Fixpoint sample_dumps (v : json) : string :=
  match v with
  | JNull => "null"
  | JBool true => "true"
  | JBool false => "false"
  | JInt n => decimal n
  | JFloat _ => "0.0"
  | JStr s => dquote ++ s ++ dquote
  | JArr items =>
      "[" ++
      (fix each (l : list json) : string :=
         match l with
         | [] => ""
         | x :: r =>
             match r with
             | [] => sample_dumps x
             | _ :: _ => sample_dumps x ++ ", " ++ each r
             end
         end) items ++ "]"
  | JObj fields =>
      "{" ++
      (fix each (l : list (string * json)) : string :=
         match l with
         | [] => ""
         | (k, x) :: r =>
             match r with
             | [] => dquote ++ k ++ dquote ++ ": " ++ sample_dumps x
             | _ :: _ => dquote ++ k ++ dquote ++ ": " ++ sample_dumps x ++ ", " ++ each r
             end
         end) fields ++ "}"
  end.

Definition sample_payload : json := JObj [("foo", JStr "bar")].

Definition sample_clock : datetime :=
  {| year := 2024; month := 3; day := 7;
     hour := 9; minute := 5; second := 0; microsecond := 1234 |}.

Definition sample_entry : json :=
  JObj [("data", sample_payload);
        ("timestamp", JStr (isoformat sample_clock));
        ("save", JStr "abc123");
        ("type", JStr "countriesData")].

Definition sample_entry_without_data : json :=
  JObj [("timestamp", JStr (isoformat sample_clock));
        ("save", JStr "abc123");
        ("type", JStr "countriesData")].

Definition sample_documents : list json :=
  [JNull; JBool false; JInt 0; JStr ""; JArr []; JObj []; JArr [JInt 1];
   sample_payload; sample_entry; sample_entry_without_data].

Definition sample_loads (s : string) : json + string :=
  match find (fun v => String.eqb (sample_dumps v) s) sample_documents with
  | Some v => inl v
  | None => inr "Expecting value: line 1 column 1 (char 0)"
  end.

Definition sample_env : environment :=
  {| BASE_API_URL := "http://skanderbeg.pm/api.php";
     CACHE_DIR := "cache";
     json_loads := sample_loads;
     json_decode_error := fun _ => true;
     json_dumps := sample_dumps |}.

Definition sample_world (reply : http_reply) (fate : write_fate) : world :=
  {| utcnow := sample_clock; send := fun _ => reply; write_fate_of := fate |}.

Definition sample_url : string := "http://skanderbeg.pm/api.php".

Definition reply_with (code : Z) (phrase body : string) : http_reply :=
  Answered {| status_code := code; reason := phrase;
              response_url := sample_url; text := body |}.

Definition sample_ok : http_reply := reply_with 200 "OK" (sample_dumps sample_payload).

(** The file name of the key of [save=abc123&type=countriesData]. *)
Definition sample_name : string := "87a2947c0fe1f21841eb43b95eb76812.json".

Definition state_with (es : entries) : state := {| disk := es; sent := [] |}.

(** A cache directory holding [text] in the file of the sample key. *)
Definition state_holding (text : string) : state :=
  state_with [(sample_name, File true text)].

Definition unreachable : http_reply :=
  ConnectionError "HTTPConnectionPool(host='skanderbeg.pm', port=80): Max retries exceeded".

Definition read_only : write_fate := OpenRaises "[Errno 30] Read-only file system".

Definition sample_request : http_request :=
  {| url := "http://skanderbeg.pm/api.php";
     params := [("scope", "getSaveDataDump"); ("save", "abc123");
                ("type", "countriesData")];
     timeout := 30 |}.

(** A write that breaks off after five characters. *)
Definition out_of_space : write_fate :=
  DumpRaises 5 "[Errno 28] No space left on device".

(** A reader that inverts [sample_dumps] on a given table of
    documents. *)
Definition loads_from (documents : list json) (s : string) : json + string :=
  match find (fun v => String.eqb (sample_dumps v) s) documents with
  | Some v => inl v
  | None => inr "Expecting value: line 1 column 1 (char 0)"
  end.

(** The entry of the request [save=a&type=b], [type=c]. *)
Definition shared_entry : json :=
  JObj [("data", sample_payload);
        ("timestamp", JStr (isoformat sample_clock));
        ("save", JStr "a&type=b");
        ("type", JStr "c")].

Definition shared_env : environment :=
  {| BASE_API_URL := "http://skanderbeg.pm/api.php";
     CACHE_DIR := "cache";
     json_loads := loads_from [sample_payload; shared_entry];
     json_decode_error := fun _ => true;
     json_dumps := sample_dumps |}.

(** A request as the server receives it: the world it is served in and
    its two parameters. *)
Record request : Type := {
  request_world : world;
  request_save : string;
  request_type : string
}.

(** The server handling requests one after the other. *)
Fixpoint serve {env : environment} (requests : list request) (st : state) : state :=
  match requests with
  | [] => st
  | r :: rest =>
      serve rest
        (snd (get_save_data_dump (request_world r) (request_save r) (request_type r)
                st))
  end.

(** A cache directory holding a directory and a socket, and no regular
    file. *)
Definition tree_without_files : entries :=
  [("old", Dir 4096 [("deeper", Dir 4096 [])]); ("gateway.sock", Special 0)].




Fixpoint replicate (n : nat) (c : ascii) : string :=
  match n with
  | O => ""
  | S k => String c (replicate k c)
  end.

(** A JSON number of 4301 digits, one more than Python converts. *)
Definition long_number : string := replicate 4301 "1".

Definition beyond_digit_limit (s : string) : bool :=
  string_forall is_digit s && (4300 <? String.length s)%nat.

(** An environment whose decoder gives up on an integer of more than
    4300 digits by a [ValueError], as Python does, and rejects every
    other text. *)
Definition digit_limit_env : environment :=
  {| BASE_API_URL := "http://skanderbeg.pm/api.php";
     CACHE_DIR := "cache";
     json_loads := fun s =>
       if beyond_digit_limit s
       then inr "Exceeds the limit (4300 digits) for integer string conversion"
       else inr "Expecting value: line 1 column 1 (char 0)";
     json_decode_error := fun s => negb (beyond_digit_limit s);
     json_dumps := sample_dumps |}.

(** * Properties *)

(** ** Key derivation *)

Lemma length_le_bytes (n : nat) (x : Z) : List.length (MD5.le_bytes n x) = n.
Proof.
  revert x; induction n as [|n IH]; intros x; simpl; [reflexivity|].
  now rewrite IH.
Qed.

Lemma le_bytes_range (n : nat) (x b : Z) :
  In b (MD5.le_bytes n x) -> 0 <= b < 256.
Proof.
  revert x; induction n as [|n IH]; intros x; simpl; [tauto|].
  intros [<- | Hin]; [|eauto].
  change 255 with (Z.ones 8). rewrite Z.land_ones by lia.
  apply Z.mod_pos_bound; lia.
Qed.

Lemma digest_length (s : string) : List.length (MD5.digest s) = 16%nat.
Proof.
  unfold MD5.digest. rewrite !length_app, !length_le_bytes. reflexivity.
Qed.

Lemma digest_range (s : string) (b : Z) : In b (MD5.digest s) -> 0 <= b < 256.
Proof.
  unfold MD5.digest. rewrite !in_app_iff.
  intros [H | [H | [H | H]]]; eapply le_bytes_range; exact H.
Qed.

Lemma hex_of_length (bs : list Z) :
  String.length (MD5.hex_of bs) = (2 * List.length bs)%nat.
Proof.
  induction bs as [|b bs IH]; simpl; [reflexivity|]. rewrite IH. lia.
Qed.

Lemma hex_digit_is_hex (n : Z) : 0 <= n < 16 -> is_hex_char (MD5.hex_digit n) = true.
Proof.
  intros Hn.
  assert (Hcases : In n [0; 1; 2; 3; 4; 5; 6; 7; 8; 9; 10; 11; 12; 13; 14; 15])
    by (simpl; lia).
  simpl in Hcases.
  repeat (destruct Hcases as [<- | Hcases]; [reflexivity|]).
  contradiction.
Qed.

Lemma hex_of_is_hex (bs : list Z) :
  (forall b, In b bs -> 0 <= b < 256) ->
  string_forall is_hex_char (MD5.hex_of bs) = true.
Proof.
  induction bs as [|b bs IH]; intros Hrange; simpl; [reflexivity|].
  assert (Hb : 0 <= b < 256) by (apply Hrange; now left).
  rewrite !hex_digit_is_hex, IH; [reflexivity | | |].
  - intros c Hc. apply Hrange. now right.
  - change 15 with (Z.ones 4). rewrite Z.land_ones by lia.
    apply Z.mod_pos_bound; lia.
  - rewrite Z.shiftr_div_pow2 by lia. change (2 ^ 4) with 16.
    split; [apply Z.div_pos; lia | apply Z.div_lt_upper_bound; lia].
Qed.

Lemma hexdigest_length (s : string) : String.length (MD5.hexdigest s) = 32%nat.
Proof.
  unfold MD5.hexdigest. now rewrite hex_of_length, digest_length.
Qed.

Lemma hexdigest_is_hex (s : string) :
  string_forall is_hex_char (MD5.hexdigest s) = true.
Proof.
  unfold MD5.hexdigest. apply hex_of_is_hex, digest_range.
Qed.

Lemma string_forall_append (p : ascii -> bool) (a b : string) :
  string_forall p (a ++ b) = string_forall p a && string_forall p b.
Proof.
  induction a as [|c a IH]; simpl; [reflexivity|].
  now rewrite IH, andb_assoc.
Qed.

Lemma string_forall_weaken (p q : ascii -> bool) (s : string) :
  (forall c, p c = true -> q c = true) ->
  string_forall p s = true -> string_forall q s = true.
Proof.
  intros Hpq. induction s as [|c s IH]; simpl; [reflexivity|].
  rewrite !andb_true_iff. intros [Hc Hs]. auto.
Qed.

Lemma hex_char_not_slash (c : ascii) :
  is_hex_char c = true -> negb (Ascii.eqb c "/") = true.
Proof.
  intros Hc. destruct (Ascii.eqb_spec c "/") as [-> | _]; [discriminate | reflexivity].
Qed.

(** C6.  For every [save] and [type] the cache key is the MD5 hex digest
    of the text [save={save}&type={type}] made of the raw parameter
    values: thirty-two characters, each a lowercase hexadecimal digit.
    The file of the key is [<key>.json], one component below the cache
    directory.  The key is a function of the two parameters alone: equal
    parameters give equal keys. *)
Theorem key_derivation (save type : string) :
  let key := hash_key (query_key_of save type) in
  key = MD5.hexdigest ("save=" ++ save ++ "&type=" ++ type) /\
  String.length key = 32%nat /\
  string_forall is_hex_char key = true /\
  get_cache_path (query_key_of save type) = [key ++ ".json"] /\
  string_forall (fun c => negb (Ascii.eqb c "/")) (key ++ ".json") = true /\
  (forall save' type',
      save' = save -> type' = type ->
      hash_key (query_key_of save' type') = key).
Proof.
  cbv zeta. unfold hash_key, query_key_of, get_cache_path.
  split; [reflexivity|].
  split; [apply hexdigest_length|].
  split; [apply hexdigest_is_hex|].
  split; [reflexivity|].
  split.
  - rewrite string_forall_append, andb_true_iff. split; [|reflexivity].
    eapply string_forall_weaken; [exact hex_char_not_slash | apply hexdigest_is_hex].
  - intros save' type' -> ->. reflexivity.
Qed.

(** ** Key distinctness *)

Lemma append_cancel_l (a b c : string) : a ++ b = a ++ c -> b = c.
Proof.
  induction a as [|x a IH]; simpl; [auto|].
  intros H. injection H as H. auto.
Qed.

Lemma contains_tail (needle : string) (c : ascii) (hay : string) :
  contains needle (String c hay) = false -> contains needle hay = false.
Proof.
  simpl. rewrite orb_false_iff. tauto.
Qed.

(** A save value that does not contain [&type=] cannot swallow the
    separator of the other side. *)
Lemma separator_not_absorbed (s t t' : string) :
  contains "&type=" s = false ->
  "&type=" ++ t = s ++ "&type=" ++ t' -> s = "".
Proof.
  intros Hs H.
  destruct s as [|c0 s]; [reflexivity|]. exfalso.
  simpl in H. injection H as <- H.
  destruct s as [|c1 s]; [discriminate H|]. injection H as <- H.
  destruct s as [|c2 s]; [discriminate H|]. injection H as <- H.
  destruct s as [|c3 s]; [discriminate H|]. injection H as <- H.
  destruct s as [|c4 s]; [discriminate H|]. injection H as <- H.
  destruct s as [|c5 s]; [discriminate H|]. injection H as <- H.
  simpl in Hs. destruct s; discriminate Hs.
Qed.

Lemma query_key_injective (s s' t t' : string) :
  contains "&type=" s = false ->
  contains "&type=" s' = false ->
  s ++ "&type=" ++ t = s' ++ "&type=" ++ t' ->
  s = s' /\ t = t'.
Proof.
  revert s'. induction s as [|c s IH]; intros s' Hs Hs' H.
  - simpl in H. pose proof (separator_not_absorbed _ _ _ Hs' H) as ->.
    split; [reflexivity|]. exact (append_cancel_l "&type=" _ _ H).
  - destruct s' as [|c' s'].
    + symmetry in H. simpl in H.
      pose proof (separator_not_absorbed _ _ _ Hs H). discriminate.
    + simpl in H. injection H as -> H.
      destruct (IH s' (contains_tail _ _ _ Hs) (contains_tail _ _ _ Hs') H) as [-> ->].
      split; reflexivity.
Qed.

(** C7, as amended.  Equal parameters give equal keys, and the key
    depends on the parameters only through the text
    [save={save}&type={type}]: two requests with the same text share
    their key.  When neither save value contains [&type=], different
    parameter values give different texts, so that their keys coincide
    only if MD5 collides on two different texts. *)
Theorem key_distinctness (save type save' type' : string) :
  (save = save' -> type = type' ->
   hash_key (query_key_of save type) = hash_key (query_key_of save' type')) /\
  (query_key_of save type = query_key_of save' type' ->
   hash_key (query_key_of save type) = hash_key (query_key_of save' type')) /\
  (contains "&type=" save = false -> contains "&type=" save' = false ->
   (save, type) <> (save', type') ->
   query_key_of save type <> query_key_of save' type' /\
   (hash_key (query_key_of save type) = hash_key (query_key_of save' type') ->
    exists x y, x <> y /\ MD5.hexdigest x = MD5.hexdigest y)).
Proof.
  split; [intros -> ->; reflexivity|].
  split; [intros ->; reflexivity|].
  intros Hs Hs' Hne.
  assert (Hq : query_key_of save type <> query_key_of save' type').
  { unfold query_key_of. intros H. apply append_cancel_l in H.
    destruct (query_key_injective _ _ _ _ Hs Hs' H) as [-> ->]. now apply Hne. }
  split; [exact Hq|].
  intros Hk. exists (query_key_of save type), (query_key_of save' type').
  split; [exact Hq | exact Hk].
Qed.

(** ** The cache store *)

Lemma resolve_name (es : entries) (name : string) :
  resolve es [name] = lookup name es.
Proof.
  simpl. now destruct (lookup name es).
Qed.

Lemma put_absent (name : string) (n : node) (es : entries) :
  lookup name es = None -> put name n es = (es ++ [(name, n)])%list.
Proof.
  induction es as [|[k v] es IH]; simpl; [reflexivity|].
  destruct (String.eqb k name); [discriminate|].
  intros H. now rewrite IH.
Qed.

Lemma lookup_put (name : string) (n : node) (es : entries) :
  lookup name (put name n es) = Some n.
Proof.
  induction es as [|[k v] es IH]; simpl.
  - now rewrite String.eqb_refl.
  - destruct (String.eqb k name) eqn:E; simpl.
    + now rewrite String.eqb_refl.
    + now rewrite E.
Qed.

Lemma get_from_cache_stored {env : environment} (es : entries) (q : string) (v : json) :
  stored es q v -> get_from_cache es q = v.
Proof.
  intros (content & Hfile & Hparse).
  unfold get_from_cache, path_exists, open_read.
  now rewrite Hfile, Hparse.
Qed.

Lemma get_from_cache_absent {env : environment} (es : entries) (q : string) :
  path_exists es (get_cache_path q) = false -> get_from_cache es q = JNull.
Proof.
  intros Hno. unfold get_from_cache. now rewrite Hno.
Qed.

(** ** The two paths of the handler *)

Lemma try_on_hit {env : environment} (w : world) (save type : string) (st : state) :
  truthy (get_from_cache (disk st) (query_key_of save type)) = true ->
  get_save_data_dump_try w save type st
  = (py_get (get_from_cache (disk st) (query_key_of save type)) "data", st).
Proof.
  intros Hhit. unfold get_save_data_dump_try, bind, reads, lift.
  now rewrite Hhit.
Qed.

Lemma try_on_miss {env : environment} (w : world) (save type : string) (st : state) :
  truthy (get_from_cache (disk st) (query_key_of save type)) = false ->
  get_save_data_dump_try w save type st = fetch_from_upstream w save type st.
Proof.
  intros Hmiss. unfold get_save_data_dump_try, bind, reads.
  now rewrite Hmiss.
Qed.

Lemma raise_for_status_passes (r : response) :
  ~ 400 <= status_code r < 600 -> raise_for_status r = inl tt.
Proof.
  intros Hout. unfold raise_for_status.
  destruct (400 <=? status_code r) eqn:E1, (status_code r <? 500) eqn:E2,
           (500 <=? status_code r) eqn:E3, (status_code r <? 600) eqn:E4;
    simpl; try reflexivity; exfalso; apply Hout; lia.
Qed.

(** The upstream path sends exactly one request, whatever comes of it. *)
Lemma fetch_calls_once {env : environment} (w : world) (save type : string) (st : state) :
  sent (snd (fetch_from_upstream w save type st))
  = (sent st ++ [upstream_request save type])%list.
Proof.
  unfold fetch_from_upstream, bind, requests_get, lift, writes, ret, response_json.
  destruct (send w (upstream_request save type)) as [msg | msg | r];
    try reflexivity.
  destruct (raise_for_status r) as [[] | e]; [|reflexivity].
  destruct (json_loads (text r)); [reflexivity|].
  destruct (json_decode_error (text r)); reflexivity.
Qed.

Lemma fetch_on_failure {env : environment} (w : world) (save type : string) (st : state)
    (msg : string) :
  raises_request_exception w (upstream_request save type) msg ->
  fetch_from_upstream w save type st
  = (inr (RequestException msg),
     {| disk := disk st; sent := (sent st ++ [upstream_request save type])%list |}).
Proof.
  intros Hfail.
  unfold fetch_from_upstream, bind, requests_get, lift, response_json.
  destruct Hfail as [m Hsend | m Hsend | r m Hsend Hrange Hraise
                    | r m Hsend Hrange Hbody Hclass];
    rewrite Hsend; try reflexivity.
  - now rewrite Hraise.
  - now rewrite (raise_for_status_passes r Hrange), Hbody, Hclass.
Qed.

Lemma fetch_on_giving_up {env : environment} (w : world) (save type : string) (st : state)
    (msg : string) :
  decoder_gives_up w (upstream_request save type) msg ->
  fetch_from_upstream w save type st
  = (inr (OtherException msg),
     {| disk := disk st; sent := (sent st ++ [upstream_request save type])%list |}).
Proof.
  intros (r & Hsend & Hrange & Hbody & Hclass).
  unfold fetch_from_upstream, bind, requests_get, lift, response_json.
  now rewrite Hsend, (raise_for_status_passes r Hrange), Hbody, Hclass.
Qed.

(** Every failure of the upstream call raises, after the one request
    and with the cache directory as it was. *)
Lemma fetch_on_any_failure {env : environment} (w : world) (save type : string)
    (st : state) (msg : string) :
  upstream_failure w (upstream_request save type) msg ->
  exists e,
    fetch_from_upstream w save type st
    = (inr e,
       {| disk := disk st; sent := (sent st ++ [upstream_request save type])%list |}).
Proof.
  intros Hfail.
  unfold fetch_from_upstream, bind, requests_get, lift, response_json.
  destruct Hfail as [m Hsend | m Hsend | r m Hsend Hrange Hraise | r m Hsend Hrange Hbody];
    rewrite Hsend; eauto.
  - rewrite Hraise. eauto.
  - rewrite (raise_for_status_passes r Hrange), Hbody.
    destruct (json_decode_error (text r)); eauto.
Qed.

Lemma fetch_on_success {env : environment} (w : world) (save type : string) (st : state)
    (v : json) :
  upstream_success w (upstream_request save type) v ->
  fetch_from_upstream w save type st
  = (inl v,
     {| disk := save_to_cache w (disk st) (query_key_of save type)
                  (cache_entry_of w v save type);
        sent := (sent st ++ [upstream_request save type])%list |}).
Proof.
  intros (r & Hsend & Hrange & Hbody).
  unfold fetch_from_upstream, bind, requests_get, lift, response_json, writes, ret.
  rewrite Hsend, (raise_for_status_passes r) by lia. now rewrite Hbody.
Qed.

Lemma handler_state {env : environment} (w : world) (save type : string) (st : state) :
  snd (get_save_data_dump w save type st) = snd (get_save_data_dump_try w save type st).
Proof.
  unfold get_save_data_dump.
  destruct (get_save_data_dump_try w save type st) as [[v | [e | e]] st']; reflexivity.
Qed.

(** What the upstream path answers does not depend on the cache
    directory. *)
Lemma fetch_answer_any_disk {env : environment} (w : world) (save type : string)
    (st st' : state) :
  fst (fetch_from_upstream w save type st) = fst (fetch_from_upstream w save type st').
Proof.
  unfold fetch_from_upstream, bind, requests_get, lift, writes, ret, response_json.
  destruct (send w (upstream_request save type)) as [msg | msg | r];
    try reflexivity.
  destruct (raise_for_status r) as [[] | e]; [|reflexivity].
  destruct (json_loads (text r)); [reflexivity|].
  destruct (json_decode_error (text r)); reflexivity.
Qed.

Lemma handler_answer {env : environment} (w : world) (save type : string)
    (st st' : state) :
  fst (get_save_data_dump_try w save type st) = fst (get_save_data_dump_try w save type st') ->
  fst (get_save_data_dump w save type st) = fst (get_save_data_dump w save type st').
Proof.
  unfold get_save_data_dump.
  destruct (get_save_data_dump_try w save type st) as [[v | [e | e]] s1],
           (get_save_data_dump_try w save type st') as [[v' | [e' | e']] s2];
    cbn [fst]; intros [=]; subst; reflexivity.
Qed.

(** A miss runs the upstream path, sends one request and answers as an
    empty cache directory would. *)
Lemma miss_calls_once {env : environment} (w : world) (save type : string) (st : state) :
  truthy (get_from_cache (disk st) (query_key_of save type)) = false ->
  get_save_data_dump_try w save type st = fetch_from_upstream w save type st /\
  sent (snd (get_save_data_dump w save type st))
  = (sent st ++ [upstream_request save type])%list /\
  fst (get_save_data_dump w save type st)
  = fst (get_save_data_dump w save type {| disk := []; sent := sent st |}).
Proof.
  intros Hmiss. split; [now apply try_on_miss|]. split.
  - now rewrite handler_state, try_on_miss, fetch_calls_once.
  - apply handler_answer. rewrite !try_on_miss; [apply fetch_answer_any_disk | | exact Hmiss].
    reflexivity.
Qed.

(** The values [bool()] maps to [False]. *)
Lemma falsy_values (v : json) :
  truthy v = false <->
  In v [JNull; JBool false; JInt 0; JFloat (S754_zero false); JFloat (S754_zero true);
        JStr ""; JArr []; JObj []].
Proof.
  split.
  - destruct v as [ | [|] | n | [[|] | | | ] | s | [|] | [|] ]; simpl;
      try discriminate; try tauto.
    + destruct (Z.eqb_spec n 0) as [-> | _]; [tauto | discriminate].
    + destruct s; [tauto | discriminate].
  - simpl. intros [<- | [<- | [<- | [<- | [<- | [<- | [<- | [<- | []]]]]]]]]; reflexivity.
Qed.

Lemma prefix_refl (s : string) : String.prefix s s = true.
Proof.
  induction s as [|c s IH]; simpl; [reflexivity|].
  destruct (ascii_dec c c); [exact IH | congruence].
Qed.

Lemma contains_append (needle before : string) :
  contains needle (before ++ needle) = true.
Proof.
  induction before as [|c before IH]; simpl.
  - destruct needle; simpl; [reflexivity|].
    destruct (ascii_dec a a); [|congruence]. now rewrite prefix_refl.
  - rewrite IH. apply orb_true_r.
Qed.

(** ** The claims about the handler *)

(** C1.  When an entry is stored under the key of the request, that is
    a JSON object with a [data] field, the handler returns the value of
    that field as it is stored and makes no upstream call: the state,
    with its record of the requests sent, is unchanged. *)
Theorem cache_hit_short_circuit {env : environment} (w : world)
    (save type : string) (st : state) (fields : list (string * json)) (data : json) :
  stored (disk st) (query_key_of save type) (JObj fields) ->
  dict_lookup "data" fields = Some data ->
  get_save_data_dump w save type st = (Returned data, st) /\
  sent (snd (get_save_data_dump w save type st)) = sent st.
Proof.
  intros Hstored Hdata.
  assert (Hres : get_save_data_dump w save type st = (Returned data, st)).
  { unfold get_save_data_dump. rewrite try_on_hit.
    - rewrite (get_from_cache_stored _ _ _ Hstored). simpl. now rewrite Hdata.
    - rewrite (get_from_cache_stored _ _ _ Hstored).
      destruct fields; [discriminate Hdata | reflexivity]. }
  rewrite Hres. split; reflexivity.
Qed.

(** C10.  When the stored document is a non-empty JSON object without a
    [data] key, the handler takes the hit path: it returns [null] with
    status 200 and makes no upstream call. *)
Theorem hit_without_data_returns_null {env : environment} (w : world)
    (save type : string) (st : state) (fields : list (string * json)) :
  stored (disk st) (query_key_of save type) (JObj fields) ->
  fields <> [] ->
  dict_lookup "data" fields = None ->
  get_save_data_dump w save type st = (Returned JNull, st) /\
  http_status (fst (get_save_data_dump w save type st)) = 200 /\
  sent (snd (get_save_data_dump w save type st)) = sent st.
Proof.
  intros Hstored Hne Hdata.
  assert (Hres : get_save_data_dump w save type st = (Returned JNull, st)).
  { unfold get_save_data_dump. rewrite try_on_hit.
    - rewrite (get_from_cache_stored _ _ _ Hstored). simpl. now rewrite Hdata.
    - rewrite (get_from_cache_stored _ _ _ Hstored).
      destruct fields; [contradiction | reflexivity]. }
  rewrite Hres. repeat split.
Qed.

(** C9.  When the stored document parses to a value that Python takes
    for false ([null], [false], [0], [0.0], [-0.0], the empty string,
    the empty array, the empty object), the handler does not take the
    hit path: it runs the upstream path, sends the upstream request and
    answers what it would answer with an empty cache directory. *)
Theorem falsy_entry_is_a_miss {env : environment} (w : world)
    (save type : string) (st : state) (v : json) :
  stored (disk st) (query_key_of save type) v ->
  In v [JNull; JBool false; JInt 0; JFloat (S754_zero false); JFloat (S754_zero true);
        JStr ""; JArr []; JObj []] ->
  get_save_data_dump_try w save type st = fetch_from_upstream w save type st /\
  sent (snd (get_save_data_dump w save type st))
  = (sent st ++ [upstream_request save type])%list /\
  fst (get_save_data_dump w save type st)
  = fst (get_save_data_dump w save type {| disk := []; sent := sent st |}).
Proof.
  intros Hstored Hfalsy. apply miss_calls_once.
  rewrite (get_from_cache_stored _ _ _ Hstored). now apply falsy_values.
Qed.

(** C5.  When the file of the key exists but cannot be read, or its
    text is not JSON, the read gives no entry, and the handler runs the
    upstream path instead of failing: it sends the upstream request and
    answers what it would answer with an empty cache directory. *)
Theorem cache_read_failure_degrades_to_miss {env : environment} (w : world)
    (save type : string) (st : state) :
  path_exists (disk st) (get_cache_path (query_key_of save type)) = true ->
  ((exists e, open_read (disk st) (get_cache_path (query_key_of save type)) = inr e) \/
   (exists content msg,
       open_read (disk st) (get_cache_path (query_key_of save type)) = inl content /\
       json_loads content = inr msg)) ->
  get_from_cache (disk st) (query_key_of save type) = JNull /\
  get_save_data_dump_try w save type st = fetch_from_upstream w save type st /\
  sent (snd (get_save_data_dump w save type st))
  = (sent st ++ [upstream_request save type])%list /\
  fst (get_save_data_dump w save type st)
  = fst (get_save_data_dump w save type {| disk := []; sent := sent st |}).
Proof.
  intros Hexists Hbad.
  assert (Hnone : get_from_cache (disk st) (query_key_of save type) = JNull).
  { unfold get_from_cache. rewrite Hexists.
    destruct Hbad as [[e He] | (content & msg & Hread & Hparse)].
    - now rewrite He.
    - now rewrite Hread, Hparse. }
  split; [exact Hnone|]. apply miss_calls_once. now rewrite Hnone.
Qed.


(** C3, as amended.  On a cache miss, when the upstream call fails by a
    connection failure, a timeout, a status from 400 to 599, or a body
    the decoder rejects with a [JSONDecodeError], the handler raises the
    error 502 whose detail is [External API error: ] followed by the
    text of the failure, and the cache directory is left as it was. *)
Theorem upstream_failure_surfacing {env : environment} (w : world)
    (save type : string) (st : state) (msg : string) :
  truthy (get_from_cache (disk st) (query_key_of save type)) = false ->
  raises_request_exception w (upstream_request save type) msg ->
  get_save_data_dump w save type st
  = (HTTPException 502 ("External API error: " ++ msg),
     {| disk := disk st; sent := (sent st ++ [upstream_request save type])%list |}) /\
  contains msg ("External API error: " ++ msg) = true.
Proof.
  intros Hmiss Hfail. split; [|apply contains_append].
  unfold get_save_data_dump.
  now rewrite (try_on_miss _ _ _ _ Hmiss), (fetch_on_failure _ _ _ _ _ Hfail).
Qed.

(** ** Timestamps *)

Lemma digit_char_is_digit (n : Z) : is_digit (digit_char n) = true.
Proof.
  unfold digit_char.
  pose proof (Z.mod_pos_bound n 10 ltac:(lia)) as Hm.
  generalize dependent (n mod 10). intros m Hm.
  assert (Hcases : In m [0; 1; 2; 3; 4; 5; 6; 7; 8; 9]) by (simpl; lia).
  simpl in Hcases.
  repeat (destruct Hcases as [<- | Hcases]; [reflexivity|]).
  contradiction.
Qed.

Lemma isoformat_iso8601 (d : datetime) : iso8601 (isoformat d) = true.
Proof.
  unfold iso8601, isoformat.
  destruct (microsecond d =? 0); cbn -[Z.pow Z.div digit_char];
    rewrite !digit_char_is_digit; reflexivity.
Qed.

(** C2, as amended.  When no file exists for the key of the request,
    the upstream call succeeds and the write completes, the handler
    sends exactly one upstream request, adds exactly one file to the
    cache directory, named [<hexkey>.json] and holding the dump of
    [{data, timestamp, save, type}] with an ISO 8601 timestamp, and
    returns the upstream payload itself. *)
Theorem read_through_correctness {env : environment} (w : world)
    (save type : string) (st : state) (v : json) :
  path_exists (disk st) (get_cache_path (query_key_of save type)) = false ->
  upstream_success w (upstream_request save type) v ->
  write_fate_of w = Completes ->
  get_save_data_dump w save type st
  = (Returned v,
     {| disk :=
          (disk st ++
           [((hash_key (query_key_of save type) ++ ".json")%string,
             File true
               (json_dumps
                  (JObj [("data", v);
                         ("timestamp", JStr (isoformat (utcnow w)));
                         ("save", JStr save);
                         ("type", JStr type)])))])%list;
        sent := (sent st ++ [upstream_request save type])%list |}) /\
  iso8601 (isoformat (utcnow w)) = true.
Proof.
  intros Hnone Hup Hfate. split; [|apply isoformat_iso8601].
  assert (Hlookup : lookup (hash_key (query_key_of save type) ++ ".json") (disk st) = None).
  { unfold path_exists, get_cache_path in Hnone. rewrite resolve_name in Hnone.
    now destruct (lookup _ (disk st)). }
  unfold get_save_data_dump.
  rewrite try_on_miss by now rewrite get_from_cache_absent.
  rewrite (fetch_on_success _ _ _ _ _ Hup).
  unfold save_to_cache, get_cache_path, open_write, cache_entry_of.
  rewrite Hfate, Hlookup. cbn [fst]. now rewrite put_absent.
Qed.

(** Once the entry is written, and the [json] module reads back what it
    wrote, the same request is answered from the cache: the payload is
    returned again and no further upstream request is sent. *)
Lemma repeated_request_is_served_from_cache {env : environment} (w w' : world)
    (save type : string) (st : state) (v : json) :
  path_exists (disk st) (get_cache_path (query_key_of save type)) = false ->
  upstream_success w (upstream_request save type) v ->
  write_fate_of w = Completes ->
  json_loads (json_dumps (cache_entry_of w v save type))
  = inl (cache_entry_of w v save type) ->
  let st' := snd (get_save_data_dump w save type st) in
  get_save_data_dump w' save type st' = (Returned v, st') /\
  sent st' = (sent st ++ [upstream_request save type])%list.
Proof.
  intros Hnone Hup Hfate Hround st'.
  assert (Hlookup : lookup (hash_key (query_key_of save type) ++ ".json") (disk st) = None).
  { unfold path_exists, get_cache_path in Hnone. rewrite resolve_name in Hnone.
    now destruct (lookup _ (disk st)). }
  assert (Hst' : st' = {| disk := put (hash_key (query_key_of save type) ++ ".json")
                                    (File true (json_dumps (cache_entry_of w v save type)))
                                    (disk st);
                          sent := (sent st ++ [upstream_request save type])%list |}).
  { unfold st', get_save_data_dump.
    rewrite try_on_miss by now rewrite get_from_cache_absent.
    rewrite (fetch_on_success _ _ _ _ _ Hup).
    unfold save_to_cache, get_cache_path, open_write.
    now rewrite Hfate, Hlookup. }
  assert (Hstored : stored (disk st') (query_key_of save type) (cache_entry_of w v save type)).
  { exists (json_dumps (cache_entry_of w v save type)). split; [|exact Hround].
    rewrite Hst'. cbn [disk]. unfold get_cache_path.
    now rewrite resolve_name, lookup_put. }
  split; [|now rewrite Hst'].
  unfold get_save_data_dump. rewrite try_on_hit.
  - now rewrite (get_from_cache_stored _ _ _ Hstored).
  - now rewrite (get_from_cache_stored _ _ _ Hstored).
Qed.

(** ** The health report *)

Lemma file_sizes_app (a b : list (Path * node)) :
  file_sizes (a ++ b) = file_sizes a + file_sizes b.
Proof.
  unfold file_sizes. rewrite filter_app, map_app.
  induction (map _ (filter _ a)) as [|x l IH]; simpl; [reflexivity|]. lia.
Qed.

Lemma file_sizes_cons (p : Path) (n : node) (l : list (Path * node)) :
  file_sizes ((p, n) :: l) = (if is_file n then st_size n else 0) + file_sizes l.
Proof.
  unfold file_sizes. simpl. destruct (is_file n); reflexivity.
Qed.

(** What [glob] lists below a node holds the regular bytes of the node,
    the node itself left out. *)
Lemma glob_below_sizes (n : node) :
  forall prefix,
    file_sizes (glob_below prefix n)
    = regular_bytes n - (if is_file n then st_size n else 0).
Proof.
  induction n as [r content | sz sub IH | sz] using node_induction; intros prefix.
  - simpl. unfold file_sizes. simpl. lia.
  - cbn [is_file]. rewrite Z.sub_0_r. cbn [glob_below regular_bytes].
    induction IH as [|[name child] rest Hchild _ IHrest]; [reflexivity|].
    rewrite file_sizes_cons, file_sizes_app, IHrest.
    cbn [snd] in Hchild. rewrite Hchild. lia.
  - reflexivity.
Qed.

Lemma lookup_In (name : string) (es : entries) (n : node) :
  lookup name es = Some n -> In (name, n) es.
Proof.
  induction es as [|[k v] es IH]; simpl; [discriminate|].
  destruct (String.eqb_spec k name) as [-> | _].
  - intros [= ->]. now left.
  - intros Hl. right. auto.
Qed.

Lemma In_lookup (name : string) (es : entries) (n : node) :
  NoDup (map fst es) -> In (name, n) es -> lookup name es = Some n.
Proof.
  induction es as [|[k v] es IH]; simpl; [tauto|].
  intros Hnodup [[= -> ->] | Hin].
  - now rewrite String.eqb_refl.
  - inversion Hnodup as [|? ? Hfresh Hrest]; subst.
    destruct (String.eqb_spec k name) as [-> | _]; [|auto].
    exfalso. apply Hfresh. change name with (fst (name, n)). now apply in_map.
Qed.

Lemma glob_child (prefix : Path) (sz : Z) (sub : entries) (name : string) (child : node) :
  In (name, child) sub ->
  In ((prefix ++ [name])%list, child) (glob_below prefix (Dir sz sub)).
Proof.
  cbn [glob_below]. induction sub as [|[k v] sub IH]; [contradiction|].
  intros [[= -> ->] | Hin].
  - now left.
  - right. apply in_or_app. right. auto.
Qed.

Lemma glob_descend (prefix : Path) (sz : Z) (sub : entries) (name : string)
    (child : node) (x : Path * node) :
  In (name, child) sub ->
  In x (glob_below (prefix ++ [name])%list child) ->
  In x (glob_below prefix (Dir sz sub)).
Proof.
  cbn [glob_below]. induction sub as [|[k v] sub IH]; [contradiction|].
  intros [[= -> ->] | Hin] Hx.
  - right. apply in_or_app. now left.
  - right. apply in_or_app. right. auto.
Qed.

Lemma glob_inv (prefix : Path) (sz : Z) (sub : entries) (x : Path * node) :
  In x (glob_below prefix (Dir sz sub)) ->
  exists name child,
    In (name, child) sub /\
    (x = ((prefix ++ [name])%list, child) \/
     In x (glob_below (prefix ++ [name])%list child)).
Proof.
  cbn [glob_below]. induction sub as [|[k v] sub IH]; [contradiction|].
  intros [<- | Hin].
  - exists k, v. split; [now left | now left].
  - apply in_app_or in Hin. destruct Hin as [Hin | Hin].
    + exists k, v. split; [now left | now right].
    + destruct (IH Hin) as (name & child & Hsub & Hx).
      exists name, child. split; [now right | exact Hx].
Qed.

(** Every entry a path leads to is listed by [glob]. *)
Lemma glob_complete (q : Path) :
  forall (sub : entries) (prefix : Path) (sz : Z) (n : node),
    resolve sub q = Some n ->
    In ((prefix ++ q)%list, n) (glob_below prefix (Dir sz sub)).
Proof.
  induction q as [|c q IH]; intros sub prefix sz n; [discriminate|].
  cbn [resolve]. destruct (lookup c sub) as [m|] eqn:Hm; [|discriminate].
  apply lookup_In in Hm. destruct q as [|c' q].
  - intros [= ->]. now apply glob_child.
  - destruct m as [ | sz' sub' | ]; try discriminate. intros Hres.
    eapply glob_descend; [exact Hm|].
    change (prefix ++ c :: c' :: q)%list with (prefix ++ [c] ++ c' :: q)%list.
    rewrite app_assoc. now apply IH.
Qed.

Lemma names_unique_child (sz : Z) (sub : entries) (name : string) (child : node) :
  names_unique (Dir sz sub) -> In (name, child) sub -> names_unique child.
Proof.
  cbn [names_unique]. intros [_ Hall]. induction sub as [|[k v] sub IH]; [contradiction|].
  destruct Hall as [Hv Hrest]. intros [[= -> ->] | Hin]; auto.
Qed.

(** With distinct names, every listed entry is the one its path leads
    to. *)
Lemma glob_sound (d : node) :
  forall (prefix p : Path) (n : node),
    names_unique d ->
    In (p, n) (glob_below prefix d) ->
    exists q, p = (prefix ++ q)%list /\
              match d with
              | Dir _ sub => resolve sub q = Some n
              | _ => False
              end.
Proof.
  induction d as [r content | sz sub IH | sz] using node_induction;
    intros prefix p n Huniq Hin; try contradiction.
  destruct (glob_inv _ _ _ _ Hin) as (name & child & Hsub & Hx).
  pose proof (In_lookup _ _ _ (proj1 Huniq) Hsub) as Hlook.
  destruct Hx as [[= -> ->] | Hbelow].
  - exists [name]. split; [reflexivity|]. now rewrite resolve_name.
  - rewrite Forall_forall in IH.
    destruct (IH _ Hsub _ _ _ (names_unique_child _ _ _ _ Huniq Hsub) Hbelow)
      as (q & -> & Hq).
    exists (name :: q). split; [now rewrite <- app_assoc|].
    cbn [resolve]. rewrite Hlook.
    destruct child as [ | sz' sub' | ]; try contradiction.
    destruct q; [discriminate Hq | exact Hq].
Qed.

(** [glob('**/*')] lists exactly the entries below the cache directory,
    each with the path that leads to it. *)
Lemma glob_all_spec (es : entries) (p : Path) (n : node) :
  names_unique (Dir 0 es) ->
  In (p, n) (glob_all es) <-> resolve es p = Some n.
Proof.
  intros Huniq. unfold glob_all. split.
  - intros Hin. destruct (glob_sound _ _ _ _ Huniq Hin) as (q & -> & Hq). exact Hq.
  - intros Hres. exact (glob_complete p es [] 0 n Hres).
Qed.

(** C8.  The health report says [healthy], gives the UTC clock in ISO
    8601, the cache directory, and as [cache_size_mb] the sum of the
    sizes of all regular files under the cache directory divided by
    [1024 * 1024]. *)
Theorem health_size_accounting {env : environment} (w : world) (es : entries) :
  status (health_check w es) = "healthy" /\
  timestamp (health_check w es) = isoformat (utcnow w) /\
  iso8601 (timestamp (health_check w es)) = true /\
  cache_dir (health_check w es) = CACHE_DIR /\
  cache_size_mb (health_check w es)
  = true_divide (regular_bytes_under es) (1024 * 1024).
Proof.
  repeat split; [apply isoformat_iso8601|].
  unfold health_check. cbn [cache_size_mb]. f_equal.
  change (file_sizes (glob_all es) = regular_bytes_under es).
  unfold glob_all, regular_bytes_under. rewrite glob_below_sizes. cbn [is_file]. lia.
Qed.

(** ** Further properties of the store and of the handler *)

Lemma lookup_put_other (name other : string) (n : node) (es : entries) :
  other <> name -> lookup other (put name n es) = lookup other es.
Proof.
  intros Hne. induction es as [|[k v] es IH]; simpl.
  - destruct (String.eqb_spec name other); [congruence | reflexivity].
  - destruct (String.eqb_spec k name) as [-> | Hk]; simpl.
    + destruct (String.eqb_spec name other); [congruence | reflexivity].
    + now rewrite IH.
Qed.

Lemma put_length_present (name : string) (n m : node) (es : entries) :
  lookup name es = Some m -> List.length (put name n es) = List.length es.
Proof.
  induction es as [|[k v] es IH]; simpl; [discriminate|].
  destruct (String.eqb k name); simpl; [reflexivity|].
  intros Hl. now rewrite IH.
Qed.

Lemma append_same_length (a b c d : string) :
  String.length a = String.length b -> a ++ c = b ++ d -> a = b.
Proof.
  revert b. induction a as [|x a IH]; intros [|y b]; simpl; try discriminate.
  - reflexivity.
  - intros [= Hlen] [= -> Hrest]. f_equal. eauto.
Qed.

Lemma cache_file_names_differ (q q' : string) :
  hash_key q <> hash_key q' ->
  (hash_key q' ++ ".json")%string <> (hash_key q ++ ".json")%string.
Proof.
  intros Hne Heq. apply Hne. symmetry.
  eapply append_same_length; [|exact Heq].
  unfold hash_key. now rewrite !hexdigest_length.
Qed.

(** Writing a file either leaves the directory as it is or puts a
    regular file under the name written. *)
Lemma open_write_cases (fate : write_fate) (es : entries) (name text : string) :
  fst (open_write fate es [name] text) = es \/
  exists r content, fst (open_write fate es [name] text) = put name (File r content) es.
Proof.
  unfold open_write.
  destruct (lookup name es) as [[r c | sz sub | sz] |]; destruct fate; cbn [fst]; eauto.
Qed.

Lemma handler_disk_cases {env : environment} (w : world) (save type : string) (st : state) :
  disk (snd (get_save_data_dump w save type st)) = disk st \/
  exists r content,
    disk (snd (get_save_data_dump w save type st))
    = put (hash_key (query_key_of save type) ++ ".json") (File r content) (disk st).
Proof.
  rewrite handler_state.
  destruct (truthy (get_from_cache (disk st) (query_key_of save type))) eqn:Hhit.
  - rewrite try_on_hit by exact Hhit. now left.
  - rewrite try_on_miss by exact Hhit.
    unfold fetch_from_upstream, bind, requests_get, lift, writes, ret, response_json.
    destruct (send w (upstream_request save type)) as [msg | msg | r];
      try (now left).
    destruct (raise_for_status r) as [[] | e]; [|now left].
    destruct (json_loads (text r));
      [|destruct (json_decode_error (text r)); now left].
    cbn [snd disk]. unfold save_to_cache, get_cache_path. apply open_write_cases.
Qed.

Lemma get_from_cache_same_file {env : environment} (es es' : entries) (q : string) :
  lookup (hash_key q ++ ".json") es' = lookup (hash_key q ++ ".json") es ->
  get_from_cache es' q = get_from_cache es q.
Proof.
  intros Hsame.
  unfold get_from_cache, path_exists, open_read, get_cache_path.
  now rewrite !resolve_name, Hsame.
Qed.

Lemma regular_bytes_append (es : entries) (name : string) (r : bool) (content : string) :
  regular_bytes_under (es ++ [(name, File r content)])%list
  = regular_bytes_under es + Z.of_nat (String.length content).
Proof.
  unfold regular_bytes_under.
  induction es as [|[k v] es IH]; simpl in *; lia.
Qed.

Lemma health_numerator (es : entries) :
  sum (map (fun f => st_size (snd f)) (filter (fun f => is_file (snd f)) (glob_all es)))
  = regular_bytes_under es.
Proof.
  change (file_sizes (glob_all es) = regular_bytes_under es).
  unfold glob_all, regular_bytes_under. rewrite glob_below_sizes. cbn [is_file]. lia.
Qed.

Lemma absent_file {env : environment} (es : entries) (q : string) :
  path_exists es (get_cache_path q) = false ->
  lookup (hash_key q ++ ".json") es = None.
Proof.
  unfold path_exists, get_cache_path. rewrite resolve_name.
  now destruct (lookup _ es).
Qed.

(** X1.  What [save_to_cache] writes, [get_from_cache] reads back: when
    the write completes over nothing or over a readable file, and the
    [json] module reads back its own dump of the data, the data stored
    for a query is the data found for it. *)
Theorem save_then_get_round_trip {env : environment} (w : world) (es : entries)
    (q : string) (data : json) :
  write_fate_of w = Completes ->
  (lookup (hash_key q ++ ".json") es = None \/
   exists old, lookup (hash_key q ++ ".json") es = Some (File true old)) ->
  json_loads (json_dumps data) = inl data ->
  get_from_cache (save_to_cache w es q data) q = data.
Proof.
  intros Hfate Hold Hround. apply get_from_cache_stored.
  exists (json_dumps data). split; [|exact Hround].
  unfold save_to_cache, get_cache_path, open_write. rewrite Hfate, resolve_name.
  destruct Hold as [Hnone | [old Hfile]].
  - rewrite Hnone. cbn [fst]. apply lookup_put.
  - rewrite Hfile. cbn [fst]. apply lookup_put.
Qed.

(** X2.  Storing under one key leaves every other key as it was: when
    two queries have different digests, what [get_from_cache] finds for
    the second is the same before and after [save_to_cache] for the
    first, however the write goes. *)
Theorem save_leaves_other_keys {env : environment} (w : world) (es : entries)
    (q q' : string) (data : json) :
  hash_key q <> hash_key q' ->
  get_from_cache (save_to_cache w es q data) q' = get_from_cache es q'.
Proof.
  intros Hne. apply get_from_cache_same_file.
  unfold save_to_cache, get_cache_path.
  destruct (open_write_cases (write_fate_of w) es (hash_key q ++ ".json")
              (json_dumps data)) as [-> | (r & content & ->)]; [reflexivity|].
  apply lookup_put_other. now apply cache_file_names_differ.
Qed.

(** X3.  A stored document that Python takes for true and that is not a
    [dict] makes the request fail: [.get] raises, the handler answers
    500 naming the type of the document, sends no upstream request and
    leaves the state as it was. *)
Theorem hit_on_non_dict_answers_500 {env : environment} (w : world)
    (save type : string) (st : state) (v : json) :
  stored (disk st) (query_key_of save type) v ->
  truthy v = true ->
  (forall fields, v <> JObj fields) ->
  get_save_data_dump w save type st
  = (HTTPException 500
       ("Internal server error: '" ++ type_name v ++ "' object has no attribute 'get'"),
     st).
Proof.
  intros Hstored Htrue Hnot.
  unfold get_save_data_dump. rewrite try_on_hit.
  - rewrite (get_from_cache_stored _ _ _ Hstored).
    destruct v; try reflexivity. now destruct (Hnot fields).
  - now rewrite (get_from_cache_stored _ _ _ Hstored).
Qed.

(** X4.  The handler sends at most one upstream request and never
    retries: none when the cached document is taken for true, and
    otherwise exactly the one request for [scope=getSaveDataDump] with
    the two parameters, whatever the upstream answers. *)
Theorem at_most_one_upstream_call {env : environment} (w : world)
    (save type : string) (st : state) :
  sent (snd (get_save_data_dump w save type st))
  = if truthy (get_from_cache (disk st) (query_key_of save type))
    then sent st
    else (sent st ++ [{| url := BASE_API_URL;
                         params := [("scope", "getSaveDataDump");
                                    ("save", save); ("type", type)];
                         timeout := 30 |}])%list.
Proof.
  rewrite handler_state.
  destruct (truthy (get_from_cache (disk st) (query_key_of save type))) eqn:Hhit.
  - now rewrite try_on_hit.
  - rewrite try_on_miss by exact Hhit. apply fetch_calls_once.
Qed.

(** X5.  A request that fails changes nothing in the cache: when the
    handler raises an [HTTPException], its status is 502 or 500 and the
    cache directory is as it was before. *)
Theorem failed_request_leaves_cache_unchanged {env : environment} (w : world)
    (save type : string) (st : state) (code : Z) (detail : string) :
  fst (get_save_data_dump w save type st) = HTTPException code detail ->
  (code = 502 \/ code = 500) /\
  disk (snd (get_save_data_dump w save type st)) = disk st.
Proof.
  unfold get_save_data_dump.
  destruct (truthy (get_from_cache (disk st) (query_key_of save type))) eqn:Hhit.
  - rewrite try_on_hit by exact Hhit.
    destruct (py_get _ "data") as [v | [e | e]]; cbn [fst snd];
      intros [= <- <-] || intros [=]; split; auto.
  - rewrite try_on_miss by exact Hhit.
    unfold fetch_from_upstream, bind, requests_get, lift, writes, ret, response_json.
    destruct (send w (upstream_request save type)) as [msg | msg | r];
      try (cbn [fst snd]; intros [= <- <-]; split; auto).
    destruct (raise_for_status r) as [[] | [e | e]];
      try (cbn [fst snd]; intros [= <- <-]; split; auto).
    destruct (json_loads (text r));
      [cbn [fst snd]; intros [=]|].
    destruct (json_decode_error (text r));
      cbn [fst snd]; intros [= <- <-]; split; auto.
Qed.

(** X6.  A request touches no file but its own: every entry of the
    cache directory under another name than [<hexkey>.json] is the same
    after the request as before, whatever the world does. *)
Theorem handler_touches_only_its_file {env : environment} (w : world)
    (save type : string) (st : state) (name : string) :
  name <> (hash_key (query_key_of save type) ++ ".json")%string ->
  lookup name (disk (snd (get_save_data_dump w save type st))) = lookup name (disk st).
Proof.
  intros Hne.
  destruct (handler_disk_cases w save type st) as [-> | (r & content & ->)];
    [reflexivity|].
  now apply lookup_put_other.
Qed.

Lemma stored_after_request {env : environment} (w : world) (save type : string)
    (st : state) (q : string) (v : json) :
  stored (disk st) q v ->
  truthy v = true ->
  stored (disk (snd (get_save_data_dump w save type st))) q v.
Proof.
  intros Hstored Htrue.
  destruct (String.eqb_spec (hash_key (query_key_of save type) ++ ".json")
              (hash_key q ++ ".json")) as [Heq | Hne].
  - assert (Hsame : get_from_cache (disk st) (query_key_of save type) = v).
    { rewrite <- (get_from_cache_stored _ _ _ Hstored).
      unfold get_from_cache, get_cache_path. now rewrite Heq. }
    rewrite handler_state, try_on_hit by (rewrite Hsame; exact Htrue).
    exact Hstored.
  - destruct Hstored as (content & Hfile & Hparse).
    exists content. split; [|exact Hparse].
    unfold get_cache_path in *. rewrite resolve_name in *. rewrite <- Hfile.
    destruct (handler_disk_cases w save type st) as [-> | (r & c & ->)];
      [reflexivity|].
    apply lookup_put_other. congruence.
Qed.

(** X7.  An entry, once stored, is never written again: when a document
    that Python takes for true is stored for a query, it is still stored
    for it, and found by [get_from_cache], after any sequence of
    requests, whatever their parameters and whatever the upstream and
    the disk do meanwhile. *)
Theorem entry_survives_every_request {env : environment} (requests : list request)
    (st : state) (q : string) (v : json) :
  stored (disk st) q v ->
  truthy v = true ->
  stored (disk (serve requests st)) q v /\
  get_from_cache (disk (serve requests st)) q = v.
Proof.
  intros Hstored Htrue.
  assert (Hkept : stored (disk (serve requests st)) q v).
  { revert st Hstored.
    induction requests as [|r requests IH]; intros st Hstored; cbn [serve];
      [exact Hstored|].
    apply IH. now apply stored_after_request. }
  split; [exact Hkept | now apply get_from_cache_stored].
Qed.

(** X8.  Requests whose keys are equal share their entry: after a
    request has fetched and stored its payload, a request with other
    parameters and the same key is answered with that payload, without
    an upstream call. *)
Theorem equal_keys_share_the_entry {env : environment} (w w' : world)
    (save type save' type' : string) (st : state) (v : json) :
  hash_key (query_key_of save' type') = hash_key (query_key_of save type) ->
  path_exists (disk st) (get_cache_path (query_key_of save type)) = false ->
  upstream_success w (upstream_request save type) v ->
  write_fate_of w = Completes ->
  json_loads (json_dumps (cache_entry_of w v save type))
  = inl (cache_entry_of w v save type) ->
  get_save_data_dump w' save' type' (snd (get_save_data_dump w save type st))
  = (Returned v, snd (get_save_data_dump w save type st)).
Proof.
  intros Hkey Hnone Hup Hfate Hround.
  pose proof (absent_file _ _ Hnone) as Hlookup.
  assert (Hst' : snd (get_save_data_dump w save type st)
                 = {| disk := put (hash_key (query_key_of save type) ++ ".json")
                                (File true (json_dumps (cache_entry_of w v save type)))
                                (disk st);
                      sent := (sent st ++ [upstream_request save type])%list |}).
  { unfold get_save_data_dump.
    rewrite try_on_miss by now rewrite get_from_cache_absent.
    rewrite (fetch_on_success _ _ _ _ _ Hup).
    unfold save_to_cache, get_cache_path, open_write.
    now rewrite Hfate, Hlookup. }
  rewrite Hst'.
  assert (Hstored : stored (put (hash_key (query_key_of save type) ++ ".json")
                              (File true (json_dumps (cache_entry_of w v save type)))
                              (disk st))
                      (query_key_of save' type') (cache_entry_of w v save type)).
  { exists (json_dumps (cache_entry_of w v save type)). split; [|exact Hround].
    unfold get_cache_path. rewrite Hkey, resolve_name. apply lookup_put. }
  unfold get_save_data_dump. rewrite try_on_hit.
  - cbn [disk]. now rewrite (get_from_cache_stored _ _ _ Hstored).
  - cbn [disk]. now rewrite (get_from_cache_stored _ _ _ Hstored).
Qed.

(** X9.  An upstream failure is not remembered: after a request that
    failed upstream, the same request goes to the upstream again, in
    whatever world it is made. *)
Theorem upstream_failure_is_not_cached {env : environment} (w w' : world)
    (save type : string) (st : state) (msg : string) :
  truthy (get_from_cache (disk st) (query_key_of save type)) = false ->
  upstream_failure w (upstream_request save type) msg ->
  sent (snd (get_save_data_dump w' save type (snd (get_save_data_dump w save type st))))
  = (sent st ++ [upstream_request save type; upstream_request save type])%list.
Proof.
  intros Hmiss Hfail.
  assert (Hst' : snd (get_save_data_dump w save type st)
                 = {| disk := disk st;
                      sent := (sent st ++ [upstream_request save type])%list |}).
  { rewrite handler_state, (try_on_miss _ _ _ _ Hmiss).
    destruct (fetch_on_any_failure w save type st msg Hfail) as [e ->]. reflexivity. }
  rewrite Hst', handler_state, try_on_miss by exact Hmiss.
  rewrite fetch_calls_once. cbn [sent]. now rewrite <- app_assoc.
Qed.

(** X10.  A file that does not parse is repaired by the next successful
    request: the handler fetches the payload, writes the entry over the
    file without adding an entry to the directory, and the request
    after it is answered from the cache. *)
Theorem unparseable_file_is_replaced {env : environment} (w w' : world)
    (save type : string) (st : state) (garbage msg : string) (v : json) :
  resolve (disk st) (get_cache_path (query_key_of save type))
  = Some (File true garbage) ->
  json_loads garbage = inr msg ->
  upstream_success w (upstream_request save type) v ->
  write_fate_of w = Completes ->
  json_loads (json_dumps (cache_entry_of w v save type))
  = inl (cache_entry_of w v save type) ->
  fst (get_save_data_dump w save type st) = Returned v /\
  List.length (disk (snd (get_save_data_dump w save type st))) = List.length (disk st) /\
  get_save_data_dump w' save type (snd (get_save_data_dump w save type st))
  = (Returned v, snd (get_save_data_dump w save type st)).
Proof.
  intros Hfile Hbad Hup Hfate Hround.
  assert (Hlookup : lookup (hash_key (query_key_of save type) ++ ".json") (disk st)
                    = Some (File true garbage)).
  { unfold get_cache_path in Hfile. now rewrite resolve_name in Hfile. }
  assert (Hmiss : truthy (get_from_cache (disk st) (query_key_of save type)) = false).
  { unfold get_from_cache, path_exists, open_read. now rewrite Hfile, Hbad. }
  assert (Hrun : get_save_data_dump w save type st
                 = (Returned v,
                    {| disk := put (hash_key (query_key_of save type) ++ ".json")
                                 (File true (json_dumps (cache_entry_of w v save type)))
                                 (disk st);
                       sent := (sent st ++ [upstream_request save type])%list |})).
  { unfold get_save_data_dump.
    rewrite (try_on_miss _ _ _ _ Hmiss), (fetch_on_success _ _ _ _ _ Hup).
    unfold save_to_cache, get_cache_path, open_write.
    now rewrite Hfate, Hlookup. }
  rewrite Hrun. cbn [fst snd disk].
  split; [reflexivity|]. split; [now apply put_length_present with (m := File true garbage)|].
  assert (Hstored : stored (put (hash_key (query_key_of save type) ++ ".json")
                              (File true (json_dumps (cache_entry_of w v save type)))
                              (disk st))
                      (query_key_of save type) (cache_entry_of w v save type)).
  { exists (json_dumps (cache_entry_of w v save type)). split; [|exact Hround].
    unfold get_cache_path. rewrite resolve_name. apply lookup_put. }
  unfold get_save_data_dump. rewrite try_on_hit.
  - cbn [disk]. now rewrite (get_from_cache_stored _ _ _ Hstored).
  - cbn [disk]. now rewrite (get_from_cache_stored _ _ _ Hstored).
Qed.

(** X11.  A write that breaks off leaves no entry behind: when
    [json.dump] raises after part of the text and that part is not
    JSON, the request still returns the payload, and the next request
    finds nothing in the cache and goes to the upstream again. *)
Theorem truncated_write_is_a_later_miss {env : environment} (w w' : world)
    (save type : string) (st : state) (v : json) (written : nat) (err msg : string) :
  path_exists (disk st) (get_cache_path (query_key_of save type)) = false ->
  upstream_success w (upstream_request save type) v ->
  write_fate_of w = DumpRaises written err ->
  json_loads (String.substring 0 written (json_dumps (cache_entry_of w v save type)))
  = inr msg ->
  fst (get_save_data_dump w save type st) = Returned v /\
  get_from_cache (disk (snd (get_save_data_dump w save type st)))
    (query_key_of save type) = JNull /\
  sent (snd (get_save_data_dump w' save type (snd (get_save_data_dump w save type st))))
  = (sent st ++ [upstream_request save type; upstream_request save type])%list.
Proof.
  intros Hnone Hup Hfate Hbad.
  pose proof (absent_file _ _ Hnone) as Hlookup.
  assert (Hrun : get_save_data_dump w save type st
                 = (Returned v,
                    {| disk := put (hash_key (query_key_of save type) ++ ".json")
                                 (File true
                                    (String.substring 0 written
                                       (json_dumps (cache_entry_of w v save type))))
                                 (disk st);
                       sent := (sent st ++ [upstream_request save type])%list |})).
  { unfold get_save_data_dump.
    rewrite try_on_miss by now rewrite get_from_cache_absent.
    rewrite (fetch_on_success _ _ _ _ _ Hup).
    unfold save_to_cache, get_cache_path, open_write.
    now rewrite Hfate, Hlookup. }
  rewrite Hrun. cbn [fst snd disk].
  assert (Hnull : get_from_cache
                    (put (hash_key (query_key_of save type) ++ ".json")
                       (File true
                          (String.substring 0 written
                             (json_dumps (cache_entry_of w v save type))))
                       (disk st))
                    (query_key_of save type) = JNull).
  { unfold get_from_cache, path_exists, open_read, get_cache_path.
    now rewrite resolve_name, lookup_put, Hbad. }
  split; [reflexivity|]. split; [exact Hnull|].
  rewrite handler_state, try_on_miss by (cbn [disk]; now rewrite Hnull).
  rewrite fetch_calls_once. cbn [sent]. now rewrite <- app_assoc.
Qed.

(** X12.  The health report sees the entry a request has stored: after
    a request that fetched and stored its payload under a new file, the
    size reported is that of the regular files held before plus the
    length of the text written. *)
Theorem health_counts_the_new_entry {env : environment} (w w' : world)
    (save type : string) (st : state) (v : json) :
  path_exists (disk st) (get_cache_path (query_key_of save type)) = false ->
  upstream_success w (upstream_request save type) v ->
  write_fate_of w = Completes ->
  cache_size_mb (health_check w' (disk (snd (get_save_data_dump w save type st))))
  = true_divide
      (regular_bytes_under (disk st)
       + Z.of_nat (String.length (json_dumps (cache_entry_of w v save type))))
      (1024 * 1024).
Proof.
  intros Hnone Hup Hfate.
  pose proof (absent_file _ _ Hnone) as Hlookup.
  unfold health_check. cbn [cache_size_mb]. f_equal.
  rewrite health_numerator.
  unfold get_save_data_dump.
  rewrite try_on_miss by now rewrite get_from_cache_absent.
  rewrite (fetch_on_success _ _ _ _ _ Hup). cbn [snd disk].
  unfold save_to_cache, get_cache_path, open_write.
  rewrite Hfate, Hlookup. cbn [fst].
  rewrite put_absent by exact Hlookup. apply regular_bytes_append.
Qed.

Lemma raise_for_status_inv (r : response) :
  match raise_for_status r with
  | inl _ => ~ 400 <= status_code r < 600
  | inr e => 400 <= status_code r < 600 /\ exists msg, e = RequestException msg
  end.
Proof.
  unfold raise_for_status.
  destruct (400 <=? status_code r) eqn:E1, (status_code r <? 500) eqn:E2,
           (500 <=? status_code r) eqn:E3, (status_code r <? 600) eqn:E4;
    cbn [andb]; try (split; [lia | eauto]); lia.
Qed.

Lemma filter_none {A : Type} (f : A -> bool) (l : list A) :
  (forall x, In x l -> f x = false) -> filter f l = [].
Proof.
  induction l as [|x l IH]; intros Hall; simpl; [reflexivity|].
  rewrite (Hall x) by now left. apply IH. intros y Hy. apply Hall. now right.
Qed.

(** X13.  The status 502 is only ever given for a failure of the
    upstream call: when the handler answers 502, the cache had nothing
    to serve, the upstream call failed by a connection failure, a
    timeout, a status from 400 to 599 or a body that is not JSON, and
    the detail is [External API error: ] followed by the text of that
    failure. *)
Theorem status_502_only_on_upstream_failure {env : environment} (w : world)
    (save type : string) (st : state) (detail : string) :
  fst (get_save_data_dump w save type st) = HTTPException 502 detail ->
  truthy (get_from_cache (disk st) (query_key_of save type)) = false /\
  exists msg,
    upstream_failure w (upstream_request save type) msg /\
    detail = "External API error: " ++ msg.
Proof.
  unfold get_save_data_dump.
  destruct (truthy (get_from_cache (disk st) (query_key_of save type))) eqn:Hhit.
  - rewrite try_on_hit by exact Hhit.
    destruct (get_from_cache (disk st) (query_key_of save type));
      cbn [py_get fst]; discriminate.
  - rewrite try_on_miss by exact Hhit.
    unfold fetch_from_upstream, bind, requests_get, lift, writes, ret, response_json.
    destruct (send w (upstream_request save type)) as [m | m | r] eqn:Hsend.
    + cbn [fst]. intros [= <-]. split; [reflexivity|].
      exists m. split; [now apply connection_failure | reflexivity].
    + cbn [fst]. intros [= <-]. split; [reflexivity|].
      exists m. split; [now apply timed_out | reflexivity].
    + pose proof (raise_for_status_inv r) as Hstatus.
      destruct (raise_for_status r) as [[] | e] eqn:Hraise.
      * destruct (json_loads (text r)) as [v | m] eqn:Hbody; cbn [fst].
        -- discriminate.
        -- destruct (json_decode_error (text r)); cbn [fst]; [|discriminate].
           intros [= <-]. split; [reflexivity|].
           exists m. split; [now apply body_not_json with (r := r) | reflexivity].
      * destruct Hstatus as [Hrange [m ->]]. cbn [fst]. intros [= <-].
        split; [reflexivity|].
        exists m. split; [now apply error_status with (r := r) | reflexivity].
Qed.


(** X17.  A body on which the decoder gives up with another exception
    than [JSONDecodeError] is answered by the second [except] clause:
    the handler raises the error 500 whose detail is
    [Internal server error: ] followed by the text of the exception,
    after one upstream request and with the cache directory as it
    was. *)
Theorem decoder_giving_up_answers_500 {env : environment} (w : world)
    (save type : string) (st : state) (msg : string) :
  truthy (get_from_cache (disk st) (query_key_of save type)) = false ->
  decoder_gives_up w (upstream_request save type) msg ->
  get_save_data_dump w save type st
  = (HTTPException 500 ("Internal server error: " ++ msg),
     {| disk := disk st; sent := (sent st ++ [upstream_request save type])%list |}).
Proof.
  intros Hmiss Hgives.
  unfold get_save_data_dump.
  now rewrite (try_on_miss _ _ _ _ Hmiss), (fetch_on_giving_up _ _ _ _ _ Hgives).
Qed.

(** X15.  A cache directory without regular files, however many
    directories and other entries it holds, is reported with the size
    [0.0]: the sum over nothing is zero and the division does not
    fail. *)
Theorem health_without_regular_files {env : environment} (w : world) (es : entries) :
  (forall p n, In (p, n) (glob_all es) -> is_file n = false) ->
  cache_size_mb (health_check w es) = S754_zero false.
Proof.
  intros Hnone. unfold health_check. cbn [cache_size_mb].
  rewrite filter_none; [reflexivity|].
  intros [p n] Hin. exact (Hnone p n Hin).
Qed.

Lemma handler_sends_at_most_one {env : environment} (w : world) (save type : string)
    (st : state) :
  (List.length (sent (snd (get_save_data_dump w save type st)))
   <= S (List.length (sent st)))%nat.
Proof.
  rewrite handler_state.
  destruct (truthy (get_from_cache (disk st) (query_key_of save type))) eqn:Hhit.
  - rewrite try_on_hit by exact Hhit. cbn [snd]. lia.
  - rewrite try_on_miss by exact Hhit.
    rewrite fetch_calls_once, length_app. cbn [List.length]. lia.
Qed.

(** X16.  The gateway never multiplies the traffic to the upstream:
    after any sequence of requests, the upstream has been sent at most
    one request for each of them. *)
Theorem serve_sends_at_most_one_request_each {env : environment}
    (requests : list request) (st : state) :
  (List.length (sent (serve requests st))
   <= List.length (sent st) + List.length requests)%nat.
Proof.
  revert st. induction requests as [|r requests IH]; intros st; cbn [serve List.length].
  - lia.
  - pose proof (IH (snd (get_save_data_dump (request_world r) (request_save r)
                           (request_type r) st))) as Hrest.
    pose proof (handler_sends_at_most_one (request_world r) (request_save r)
                  (request_type r) st) as Hone.
    lia.
Qed.

(** ** Examples, witnesses and counterexamples *)

Example md5_empty : MD5.hexdigest "" = "d41d8cd98f00b204e9800998ecf8427e".
Proof. vm_compute. reflexivity. Qed.

Example md5_abc : MD5.hexdigest "abc" = "900150983cd24fb0d6963f7d28e17f72".
Proof. vm_compute. reflexivity. Qed.

Example md5_a : MD5.hexdigest "a" = "0cc175b9c0f1b6a831c399e269772661".
Proof. vm_compute. reflexivity. Qed.

Example md5_message_digest :
  MD5.hexdigest "message digest" = "f96b697d7cb7938d525a2f31aaf161d0".
Proof. vm_compute. reflexivity. Qed.

Example md5_alphabet :
  MD5.hexdigest "abcdefghijklmnopqrstuvwxyz" = "c3fcd3d76192e4007dfb496cca67e13b".
Proof. vm_compute. reflexivity. Qed.

Example md5_alphanumeric :
  MD5.hexdigest "ABCDEFGHIJKLMNOPQRSTUVWXYZabcdefghijklmnopqrstuvwxyz0123456789"
  = "d174ab98d277d9f5a5611c2c9f419d9f".
Proof. vm_compute. reflexivity. Qed.

Example md5_eighty :
  MD5.hexdigest
    "12345678901234567890123456789012345678901234567890123456789012345678901234567890"
  = "57edf4a22be3c955ac49da2e2107b67a".
Proof. vm_compute. reflexivity. Qed.

Example key_of_documented_request :
  hash_key (query_key_of "abc123" "countriesData")
  = "87a2947c0fe1f21841eb43b95eb76812".
Proof. vm_compute. reflexivity. Qed.

(** C7, as stated, fails: two requests that differ in both parameters
    and have the same key, whatever the hash function. *)
Lemma key_collision_on_separator :
  ("a&type=b", "c") <> ("a", "b&type=c") /\
  hash_key (query_key_of "a&type=b" "c") = hash_key (query_key_of "a" "b&type=c").
Proof.
  split; [discriminate | reflexivity].
Qed.

Lemma key_distinctness_witness :
  contains "&type=" "abc123" = false /\
  contains "&type=" "abc124" = false /\
  ("abc123", "countriesData") <> ("abc124", "countriesData") /\
  query_key_of "abc123" "countriesData" <> query_key_of "abc124" "countriesData".
Proof.
  split; [reflexivity|]. split; [reflexivity|].
  split; [discriminate|].
  destruct (key_distinctness "abc123" "countriesData" "abc124" "countriesData")
    as (_ & _ & H).
  destruct (H eq_refl eq_refl) as [Hq _]; [discriminate | exact Hq].
Defined.

Lemma key_derivation_witness :
  hash_key (query_key_of "abc123" "countriesData")
  = hash_key (query_key_of "abc123" "countriesData").
Proof.
  destruct (key_derivation "abc123" "countriesData") as (_ & _ & _ & _ & _ & H).
  exact (H "abc123" "countriesData" eq_refl eq_refl).
Defined.

Example sample_key_name :
  get_cache_path (query_key_of "abc123" "countriesData") = [sample_name].
Proof. vm_compute. reflexivity. Qed.

Example sample_entry_text :
  sample_dumps sample_payload = "{" ++ dquote ++ "foo" ++ dquote ++ ": "
                                 ++ dquote ++ "bar" ++ dquote ++ "}".
Proof. reflexivity. Qed.

(** The scenario of the specification: the first request stores the
    entry and returns the payload, the second returns it from the cache
    without an upstream call. *)
Example two_requests_one_upstream_call :
  let w := sample_world sample_ok Completes in
  let first := get_save_data_dump (env := sample_env) w "abc123" "countriesData"
                 (state_with []) in
  let again := get_save_data_dump (env := sample_env) w "abc123" "countriesData"
                 (snd first) in
  fst first = Returned sample_payload /\
  fst again = Returned sample_payload /\
  sent (snd again) = [sample_request] /\
  disk (snd again) = [(sample_name, File true (sample_dumps sample_entry))].
Proof. vm_compute. repeat split. Qed.

Lemma cache_hit_short_circuit_witness :
  get_save_data_dump (env := sample_env) (sample_world unreachable Completes)
    "abc123" "countriesData" (state_holding (sample_dumps sample_entry))
  = (Returned sample_payload, state_holding (sample_dumps sample_entry)).
Proof.
  refine (proj1 (cache_hit_short_circuit (env := sample_env) _ "abc123" "countriesData"
                   (state_holding (sample_dumps sample_entry))
                   [("data", sample_payload);
                    ("timestamp", JStr (isoformat sample_clock));
                    ("save", JStr "abc123");
                    ("type", JStr "countriesData")]
                   sample_payload _ _)).
  - exists (sample_dumps sample_entry). split; vm_compute; reflexivity.
  - reflexivity.
Defined.

Lemma hit_without_data_returns_null_witness :
  get_save_data_dump (env := sample_env) (sample_world unreachable Completes)
    "abc123" "countriesData" (state_holding (sample_dumps sample_entry_without_data))
  = (Returned JNull, state_holding (sample_dumps sample_entry_without_data)).
Proof.
  refine (proj1 (hit_without_data_returns_null (env := sample_env) _
                   "abc123" "countriesData"
                   (state_holding (sample_dumps sample_entry_without_data))
                   [("timestamp", JStr (isoformat sample_clock));
                    ("save", JStr "abc123");
                    ("type", JStr "countriesData")] _ _ _)).
  - exists (sample_dumps sample_entry_without_data). split; vm_compute; reflexivity.
  - discriminate.
  - reflexivity.
Defined.

Lemma falsy_entry_is_a_miss_witness :
  sent (snd (get_save_data_dump (env := sample_env) (sample_world sample_ok Completes)
               "abc123" "countriesData" (state_holding "{}")))
  = [sample_request].
Proof.
  refine (proj1 (proj2 (falsy_entry_is_a_miss (env := sample_env) _
                          "abc123" "countriesData" (state_holding "{}") (JObj []) _ _))).
  - exists "{}". split; vm_compute; reflexivity.
  - simpl. tauto.
Defined.

Lemma cache_read_failure_degrades_to_miss_witness :
  sent (snd (get_save_data_dump (env := sample_env) (sample_world sample_ok Completes)
               "abc123" "countriesData" (state_holding "{not json")))
  = [sample_request].
Proof.
  refine (proj1 (proj2 (proj2 (cache_read_failure_degrades_to_miss (env := sample_env) _
                                 "abc123" "countriesData" (state_holding "{not json")
                                 _ _)))).
  - vm_compute. reflexivity.
  - right. exists "{not json", "Expecting value: line 1 column 1 (char 0)".
    split; vm_compute; reflexivity.
Defined.


Lemma upstream_failure_surfacing_witness :
  get_save_data_dump (env := sample_env)
    (sample_world (reply_with 500 "Internal Server Error" "oops") Completes)
    "abc123" "countriesData" (state_with [])
  = (HTTPException 502
       "External API error: 500 Server Error: Internal Server Error for url: http://skanderbeg.pm/api.php",
     {| disk := []; sent := [sample_request] |}).
Proof.
  refine (proj1 (upstream_failure_surfacing (env := sample_env) _
                   "abc123" "countriesData" (state_with [])
                   "500 Server Error: Internal Server Error for url: http://skanderbeg.pm/api.php"
                   _ _)).
  - vm_compute. reflexivity.
  - eapply by_status; [reflexivity | simpl; lia | reflexivity].
Defined.

Lemma read_through_correctness_witness :
  fst (get_save_data_dump (env := sample_env) (sample_world sample_ok Completes)
         "abc123" "countriesData" (state_with []))
  = Returned sample_payload.
Proof.
  refine (f_equal fst
            (proj1 (read_through_correctness (env := sample_env)
                      (sample_world sample_ok Completes)
                      "abc123" "countriesData" (state_with []) sample_payload _ _ _))).
  - vm_compute. reflexivity.
  - eexists. split; [reflexivity|]. split; [simpl; lia | vm_compute; reflexivity].
  - reflexivity.
Defined.

(** C2, as stated, fails: nothing is stored for the key, the upstream
    call succeeds, and yet no file is persisted, because the cache
    directory cannot be written. *)
Lemma read_through_without_a_file :
  path_exists [] (get_cache_path (query_key_of "abc123" "countriesData")) = false /\
  upstream_success (env := sample_env) (sample_world sample_ok read_only)
    sample_request sample_payload /\
  get_save_data_dump (env := sample_env) (sample_world sample_ok read_only)
    "abc123" "countriesData" (state_with [])
  = (Returned sample_payload, {| disk := []; sent := [sample_request] |}).
Proof.
  split; [reflexivity|]. split.
  - eexists. split; [reflexivity|]. split; [simpl; lia | vm_compute; reflexivity].
  - vm_compute. reflexivity.
Qed.

(** C3, as stated, fails: the upstream answers with the status 300,
    which is not a 2xx status, and the handler answers 200 with the body
    and stores an entry. *)
Lemma status_300_is_served_and_cached :
  ~ 200 <= 300 < 300 /\
  get_save_data_dump (env := sample_env)
    (sample_world (reply_with 300 "Multiple Choices" (sample_dumps sample_payload))
       Completes)
    "abc123" "countriesData" (state_with [])
  = (Returned sample_payload,
     {| disk := [(sample_name, File true (sample_dumps sample_entry))];
        sent := [sample_request] |}).
Proof.
  split; [lia|]. vm_compute. reflexivity.
Qed.

(** A stored document that is true for Python and is not a [dict] has
    no [get]: the second [except] clause answers 500. *)
Example hit_on_a_list_is_an_error :
  get_save_data_dump (env := sample_env) (sample_world sample_ok Completes)
    "abc123" "countriesData" (state_holding "[1]")
  = (HTTPException 500 "Internal server error: 'list' object has no attribute 'get'",
     state_holding "[1]").
Proof. vm_compute. reflexivity. Qed.

Example route_default_type :
  route_get_save_data_dump (env := sample_env) (sample_world sample_ok Completes)
    "abc123" None (state_with [])
  = get_save_data_dump (env := sample_env) (sample_world sample_ok Completes)
      "abc123" "countriesData" (state_with []).
Proof. reflexivity. Qed.

Example health_of_a_small_tree :
  cache_size_mb
    (health_check (env := sample_env) (sample_world unreachable Completes)
       [("a.json", File true "12345");
        ("sub", Dir 4096 [("b.json", File false "123"); ("pipe", Special 7)])])
  = S754_finite false 4503599627370496 (-69).
Proof. vm_compute. reflexivity. Qed.

(** ** Witnesses of the further properties *)

Lemma save_then_get_round_trip_witness :
  get_from_cache (env := sample_env)
    (save_to_cache (env := sample_env) (sample_world sample_ok Completes) []
       (query_key_of "abc123" "countriesData") sample_entry)
    (query_key_of "abc123" "countriesData")
  = sample_entry.
Proof.
  refine (save_then_get_round_trip (env := sample_env) (sample_world sample_ok Completes)
            [] (query_key_of "abc123" "countriesData") sample_entry _ _ _).
  - reflexivity.
  - left. reflexivity.
  - vm_compute. reflexivity.
Defined.

Lemma save_leaves_other_keys_witness :
  get_from_cache (env := sample_env)
    (save_to_cache (env := sample_env) (sample_world sample_ok Completes)
       [(sample_name, File true (sample_dumps sample_entry))]
       (query_key_of "abc124" "countriesData") sample_payload)
    (query_key_of "abc123" "countriesData")
  = get_from_cache (env := sample_env)
      [(sample_name, File true (sample_dumps sample_entry))]
      (query_key_of "abc123" "countriesData").
Proof.
  refine (save_leaves_other_keys (env := sample_env) (sample_world sample_ok Completes)
            [(sample_name, File true (sample_dumps sample_entry))]
            (query_key_of "abc124" "countriesData")
            (query_key_of "abc123" "countriesData") sample_payload _).
  intros Heq. vm_compute in Heq. discriminate Heq.
Defined.

Lemma hit_on_non_dict_answers_500_witness :
  get_save_data_dump (env := sample_env) (sample_world sample_ok Completes)
    "abc123" "countriesData" (state_holding "[1]")
  = (HTTPException 500 "Internal server error: 'list' object has no attribute 'get'",
     state_holding "[1]").
Proof.
  refine (hit_on_non_dict_answers_500 (env := sample_env)
            (sample_world sample_ok Completes) "abc123" "countriesData"
            (state_holding "[1]") (JArr [JInt 1]) _ _ _).
  - exists "[1]". split; vm_compute; reflexivity.
  - reflexivity.
  - discriminate.
Defined.

Lemma failed_request_leaves_cache_unchanged_witness :
  disk (snd (get_save_data_dump (env := sample_env)
               (sample_world (reply_with 500 "Internal Server Error" "oops") Completes)
               "abc123" "countriesData" (state_holding "{not json")))
  = [(sample_name, File true "{not json")].
Proof.
  refine (proj2 (failed_request_leaves_cache_unchanged (env := sample_env)
                   (sample_world (reply_with 500 "Internal Server Error" "oops") Completes)
                   "abc123" "countriesData" (state_holding "{not json") 502
                   "External API error: 500 Server Error: Internal Server Error for url: http://skanderbeg.pm/api.php"
                   _)).
  vm_compute. reflexivity.
Defined.

Lemma handler_touches_only_its_file_witness :
  lookup "other.json"
    (disk (snd (get_save_data_dump (env := sample_env) (sample_world sample_ok Completes)
                  "abc123" "countriesData"
                  (state_with [("other.json", File true "{}")]))))
  = Some (File true "{}").
Proof.
  refine (handler_touches_only_its_file (env := sample_env)
            (sample_world sample_ok Completes) "abc123" "countriesData"
            (state_with [("other.json", File true "{}")]) "other.json" _).
  intros Heq. vm_compute in Heq. discriminate Heq.
Defined.

Lemma entry_survives_every_request_witness :
  get_from_cache (env := sample_env)
    (disk (serve (env := sample_env)
             [{| request_world := sample_world sample_ok Completes;
                 request_save := "abc124"; request_type := "countriesData" |};
              {| request_world := sample_world unreachable out_of_space;
                 request_save := "abc123"; request_type := "countriesData" |}]
             (state_holding (sample_dumps sample_entry))))
    (query_key_of "abc123" "countriesData")
  = sample_entry.
Proof.
  refine (proj2 (entry_survives_every_request (env := sample_env) _
                   (state_holding (sample_dumps sample_entry))
                   (query_key_of "abc123" "countriesData") sample_entry _ _)).
  - exists (sample_dumps sample_entry). split; vm_compute; reflexivity.
  - reflexivity.
Defined.

Lemma equal_keys_share_the_entry_witness :
  fst (get_save_data_dump (env := shared_env) (sample_world unreachable Completes)
         "a" "b&type=c"
         (snd (get_save_data_dump (env := shared_env) (sample_world sample_ok Completes)
                 "a&type=b" "c" (state_with []))))
  = Returned sample_payload.
Proof.
  refine (f_equal fst
            (equal_keys_share_the_entry (env := shared_env)
               (sample_world sample_ok Completes) (sample_world unreachable Completes)
               "a&type=b" "c" "a" "b&type=c" (state_with []) sample_payload _ _ _ _ _)).
  - reflexivity.
  - vm_compute. reflexivity.
  - eexists. split; [reflexivity|]. split; [simpl; lia | vm_compute; reflexivity].
  - reflexivity.
  - vm_compute. reflexivity.
Defined.

Lemma upstream_failure_is_not_cached_witness :
  sent (snd (get_save_data_dump (env := sample_env) (sample_world sample_ok Completes)
               "abc123" "countriesData"
               (snd (get_save_data_dump (env := sample_env)
                       (sample_world unreachable Completes)
                       "abc123" "countriesData" (state_with [])))))
  = [sample_request; sample_request].
Proof.
  refine (upstream_failure_is_not_cached (env := sample_env)
            (sample_world unreachable Completes) (sample_world sample_ok Completes)
            "abc123" "countriesData" (state_with [])
            "HTTPConnectionPool(host='skanderbeg.pm', port=80): Max retries exceeded" _ _).
  - vm_compute. reflexivity.
  - apply connection_failure. reflexivity.
Defined.

Lemma unparseable_file_is_replaced_witness :
  fst (get_save_data_dump (env := sample_env) (sample_world sample_ok Completes)
         "abc123" "countriesData" (state_holding "{not json"))
  = Returned sample_payload.
Proof.
  refine (proj1 (unparseable_file_is_replaced (env := sample_env)
                   (sample_world sample_ok Completes) (sample_world unreachable Completes)
                   "abc123" "countriesData" (state_holding "{not json") "{not json"
                   "Expecting value: line 1 column 1 (char 0)" sample_payload
                   _ _ _ _ _)).
  - vm_compute. reflexivity.
  - vm_compute. reflexivity.
  - eexists. split; [reflexivity|]. split; [simpl; lia | vm_compute; reflexivity].
  - reflexivity.
  - vm_compute. reflexivity.
Defined.

Lemma truncated_write_is_a_later_miss_witness :
  get_from_cache (env := sample_env)
    (disk (snd (get_save_data_dump (env := sample_env)
                  (sample_world sample_ok out_of_space)
                  "abc123" "countriesData" (state_with []))))
    (query_key_of "abc123" "countriesData")
  = JNull.
Proof.
  refine (proj1 (proj2 (truncated_write_is_a_later_miss (env := sample_env)
                          (sample_world sample_ok out_of_space)
                          (sample_world sample_ok Completes)
                          "abc123" "countriesData" (state_with []) sample_payload 5
                          "[Errno 28] No space left on device"
                          "Expecting value: line 1 column 1 (char 0)" _ _ _ _))).
  - vm_compute. reflexivity.
  - eexists. split; [reflexivity|]. split; [simpl; lia | vm_compute; reflexivity].
  - reflexivity.
  - vm_compute. reflexivity.
Defined.

Lemma health_counts_the_new_entry_witness :
  cache_size_mb
    (health_check (env := sample_env) (sample_world unreachable Completes)
       (disk (snd (get_save_data_dump (env := sample_env)
                     (sample_world sample_ok Completes)
                     "abc123" "countriesData" (state_with [])))))
  = true_divide
      (0 + Z.of_nat (String.length (sample_dumps sample_entry))) (1024 * 1024).
Proof.
  refine (health_counts_the_new_entry (env := sample_env)
            (sample_world sample_ok Completes) (sample_world unreachable Completes)
            "abc123" "countriesData" (state_with []) sample_payload _ _ _).
  - vm_compute. reflexivity.
  - eexists. split; [reflexivity|]. split; [simpl; lia | vm_compute; reflexivity].
  - reflexivity.
Defined.

Lemma status_502_only_on_upstream_failure_witness :
  truthy (get_from_cache (env := sample_env) [] (query_key_of "abc123" "countriesData"))
  = false.
Proof.
  refine (proj1 (status_502_only_on_upstream_failure (env := sample_env)
                   (sample_world (TimedOut "Read timed out. (read timeout=30)") Completes)
                   "abc123" "countriesData" (state_with [])
                   "External API error: Read timed out. (read timeout=30)" _)).
  vm_compute. reflexivity.
Defined.


Lemma health_without_regular_files_witness :
  cache_size_mb
    (health_check (env := sample_env) (sample_world unreachable Completes)
       tree_without_files)
  = S754_zero false.
Proof.
  refine (health_without_regular_files (env := sample_env)
            (sample_world unreachable Completes) tree_without_files _).
  intros p n Hin. vm_compute in Hin.
  repeat (destruct Hin as [[= <- <-] | Hin]; [reflexivity|]).
  contradiction.
Defined.


Lemma decoder_giving_up_answers_500_witness :
  get_save_data_dump (env := digit_limit_env)
    (sample_world (reply_with 200 "OK" long_number) Completes)
    "abc123" "countriesData" (state_with [])
  = (HTTPException 500
       "Internal server error: Exceeds the limit (4300 digits) for integer string conversion",
     {| disk := []; sent := [sample_request] |}).
Proof.
  refine (decoder_giving_up_answers_500 (env := digit_limit_env)
            (sample_world (reply_with 200 "OK" long_number) Completes)
            "abc123" "countriesData" (state_with [])
            "Exceeds the limit (4300 digits) for integer string conversion" _ _).
  - vm_compute. reflexivity.
  - eexists. split; [reflexivity|]. split; [simpl; lia|].
    split; vm_compute; reflexivity.
Defined.
